(** * Housing price prediction: preprocessing, training, persistence, serving

    A shallow embedding of [src/data_preprocessing.py], [src/train_model.py]
    and [src/predict.py], with the properties of the design document that
    concern them.

    Conventions
    - A Python float is idealised as an exact rational ([Q]).  A value that
      numpy would hold as NaN or as an infinity is the cell [None].
    - A Python [dict] is an association list in insertion order; its keys are
      pairwise distinct, lookup returns the first binding.
    - A raised exception is a value of [exn]; a call that may raise returns
      [result A], the sum of [exn] and [A].
    - The calls into numpy, pandas and scikit-learn are modelled after the
      documented behaviour of those libraries: which shapes they accept,
      which exception they raise, and the arithmetic they perform.  The
      pseudo-random generator, the square root and the least-squares solver
      are parameters of the sections that use them. *)

From Stdlib Require Import QArith Qround Qabs ZArith Ascii String.
From stdpp Require Import base option list strings gmap.

Local Open Scope string_scope.

(** ** Exceptions and results *)

Inductive exn : Type :=
| KeyError (key : string)
| ValueError
| TypeError
| AttributeError
| IndexError
| NotFittedError
| FileNotFoundError (path : string)
| EOFError
| UnpicklingError
| JSONDecodeError.

Definition result (A : Type) : Type := (exn + A)%type.

Definition Raise {A : Type} (e : exn) : result A := inl e.
Definition Return {A : Type} (a : A) : result A := inr a.

Definition rbind {A B : Type} (m : result A) (k : A -> result B) : result B :=
  match m with
  | inl e => inl e
  | inr a => k a
  end.

Notation "'let*' x ':=' m 'in' k" := (rbind m (fun x => k))
  (at level 10, x pattern, m at level 100, k at level 200, only parsing).

(** [[f(x) for x in l]]: the comprehension stops at the first element that
    raises. *)
Fixpoint comprehension {A B : Type} (f : A -> result B) (l : list A)
  : result (list B) :=
  match l with
  | [] => Return []
  | x :: l' =>
      let* y := f x in
      let* ys := comprehension f l' in
      Return (y :: ys)
  end.

(** ** Python dictionaries *)

Definition dict (V : Type) : Type := list (string * V).

Definition dict_keys {V : Type} (d : dict V) : list string := d.*1.

Fixpoint dict_get {V : Type} (d : dict V) (k : string) : option V :=
  match d with
  | [] => None
  | (k', v) :: d' => if String.eqb k k' then Some v else dict_get d' k
  end.

(** [d[k]] *)
Definition dict_getitem {V : Type} (d : dict V) (k : string) : result V :=
  match dict_get d k with
  | Some v => Return v
  | None => Raise (KeyError k)
  end.

(** ** Numbers, cells and matrices *)

(** A cell of a numeric array: [None] is a non-finite value (NaN, inf). *)
Definition cell : Type := option Q.

Definition matrix (A : Type) : Type := list (list A).

Definition finite (c : cell) : bool :=
  match c with Some _ => true | None => false end.

Definition Qzero (q : Q) : bool := Qeq_bool q 0.

Definition Qltb (x y : Q) : bool := negb (Qle_bool y x).

Definition Qsum (l : list Q) : Q := fold_right Qplus 0%Q l.

(** [np.mean] of a non-empty vector. *)
Definition Qmean (l : list Q) : Q := (Qsum l / inject_Z (Z.of_nat (length l)))%Q.

(** ** The fitted estimators of scikit-learn *)

(** [StandardScaler]: per feature, [mean_] and [scale_]. *)
Record ScalerParams : Type := { scaler_stats : list (cell * cell) }.

Definition mean_ (s : ScalerParams) : list cell := (scaler_stats s).*1.
Definition scale_ (s : ScalerParams) : list cell := (scaler_stats s).*2.
Definition scaler_n_features_in_ (s : ScalerParams) : nat :=
  length (scaler_stats s).

(** [LinearRegression]: [coef_] and [intercept_]. *)
Record LinearModel : Type := { coef_ : list Q; intercept_ : Q }.

(** What [pickle.load] may hand back. *)
Inductive pyobj : Type :=
| PyNone
| PyLinearRegression (fitted : option LinearModel)
| PyStandardScaler (fitted : option ScalerParams).

(** [sklearn.utils.validation.check_array] on a 2-D array, followed by the
    feature-count check of [validate_data(reset=False)]: at least one sample,
    at least one feature, the fitted number of features, and (unless NaN is
    allowed) only finite values.  Every violation raises [ValueError].  A
    numpy array is rectangular, the width is checked on every row. *)
Definition check_array (allow_nan : bool) (n_features_in : nat)
    (X : matrix cell) : result (matrix cell) :=
  if Nat.eqb (length X) 0 then Raise ValueError
  else if Nat.eqb n_features_in 0 then Raise ValueError
  else if negb (forallb (fun row => Nat.eqb (length row) n_features_in) X)
  then Raise ValueError
  else if negb allow_nan && negb (forallb (forallb finite) X)
  then Raise ValueError
  else Return X.

(** [StandardScaler.transform]: NaN is let through, every finite value [x] of
    feature [j] becomes [(x - mean_[j]) / scale_[j]]; a division by zero
    leaves a non-finite value. *)
Definition scale_cell (c : cell) (ms : cell * cell) : cell :=
  match c, ms with
  | Some x, (Some m, Some s) => if Qzero s then None else Some ((x - m) / s)%Q
  | _, _ => None
  end.

Definition scale_row (s : ScalerParams) (row : list cell) : list cell :=
  zip_with scale_cell row (scaler_stats s).

Definition StandardScaler_transform (s : ScalerParams) (X : matrix cell)
  : result (matrix cell) :=
  let* X := check_array true (scaler_n_features_in_ s) X in
  Return (map (scale_row s) X).

(** [LinearRegression.predict]: [X @ coef_ + intercept_], on finite input. *)
Definition dot (xs cs : list Q) : Q := Qsum (zip_with Qmult xs cs).

Definition cell_value (c : cell) : Q := default 0%Q c.

Definition decision_row (m : LinearModel) (row : list cell) : Q :=
  (dot (map cell_value row) (coef_ m) + intercept_ m)%Q.

Definition LinearRegression_predict (m : LinearModel) (X : matrix cell)
  : result (list Q) :=
  let* X := check_array false (length (coef_ m)) X in
  Return (map (decision_row m) X).

(** Method calls on whatever object was unpickled. *)
Definition scaler_transform (o : pyobj) (X : matrix cell) : result (matrix cell) :=
  match o with
  | PyStandardScaler (Some s) => StandardScaler_transform s X
  | PyStandardScaler None => Raise NotFittedError
  | _ => Raise AttributeError
  end.

Definition model_predict (o : pyobj) (X : matrix cell) : result (list Q) :=
  match o with
  | PyLinearRegression (Some m) => LinearRegression_predict m X
  | PyLinearRegression None => Raise NotFittedError
  | _ => Raise AttributeError
  end.

(** ** Files *)

Record SplitMetrics : Type := { mse : Q; rmse : Q; mae : Q; r2 : Q }.
Record Metrics : Type :=
  { metrics_train : SplitMetrics; metrics_test : SplitMetrics }.

(** The JSON documents the program writes: the metrics dictionary ([None] is
    the empty dictionary a trainer holds before [evaluate]) and the list of
    feature names. *)
Inductive json : Type :=
| JMetrics (m : option Metrics)
| JFeatures (names : list string).

Inductive file : Type :=
| EmptyFile
| Pickle (o : pyobj)
| Json (j : json).

Abbreviation FS := (gmap string file).

Definition ends_with_slash (s : string) : bool :=
  match String.rev s with
  | String c _ => Ascii.eqb c "/"%char
  | EmptyString => false
  end.

(** [os.path.join(a, b)] for a relative [b]. *)
Definition os_path_join (a b : string) : string :=
  if String.eqb a "" then b
  else if ends_with_slash a then a ++ b
  else a ++ "/" ++ b.

Definition model_file : string := "linear_regression_model.pkl".
Definition scaler_file : string := "scaler.pkl".
Definition metrics_file : string := "metrics.json".
Definition features_file : string := "features.json".

(** [with open(path, 'rb') as f: pickle.load(f)] *)
Definition pickle_load (fs : FS) (path : string) : result pyobj :=
  match fs !! path with
  | None => Raise (FileNotFoundError path)
  | Some EmptyFile => Raise EOFError
  | Some (Pickle o) => Return o
  | Some (Json _) => Raise UnpicklingError
  end.

(** [with open(path, 'r') as f: json.load(f)] *)
Definition json_load (fs : FS) (path : string) : result json :=
  match fs !! path with
  | None => Raise (FileNotFoundError path)
  | Some (Json j) => Return j
  | Some _ => Raise JSONDecodeError
  end.

(** ** Data frames *)

(** A pandas [DataFrame] of numeric columns: the column labels in order and
    the rows, each as long as the labels. *)
Record DataFrame : Type := { columns : list string; rows : matrix cell }.

Fixpoint column_index (cols : list string) (name : string) : option nat :=
  match cols with
  | [] => None
  | c :: cs => if String.eqb name c then Some 0%nat else S <$> column_index cs name
  end.

Definition get_loc (cols : list string) (name : string) : result nat :=
  match column_index cols name with
  | Some i => Return i
  | None => Raise (KeyError name)
  end.

Definition cell_at (i : nat) (row : list cell) : cell := default None (row !! i).

Definition take_cells (idx : list nat) (row : list cell) : list cell :=
  map (fun i => cell_at i row) idx.

(** [df[names].values]: the columns called [names], in that order; a label
    that is not a column raises [KeyError]. *)
Definition frame_values (df : DataFrame) (names : list string)
  : result (matrix cell) :=
  let* idx := comprehension (get_loc (columns df)) names in
  Return (map (take_cells idx) (rows df)).

(** [df[name]]: one column. *)
Definition frame_column (df : DataFrame) (name : string) : result (list cell) :=
  let* i := get_loc (columns df) name in
  Return (map (cell_at i) (rows df)).

(** What [predict_batch] hands to [pd.DataFrame]: a dictionary of value
    lists, one per column, or a list of records. *)
Inductive frame_data : Type :=
| Columns (d : dict (list Q))
| Records (rs : list (dict Q)).

Definition same_lengths (d : dict (list Q)) : bool :=
  match d with
  | [] => true
  | (_, c) :: d' => forallb (fun kc => Nat.eqb (length (snd kc)) (length c)) d'
  end.

Definition n_rows (d : dict (list Q)) : nat :=
  match d with
  | [] => 0
  | (_, c) :: _ => length c
  end.

Definition add_keys (acc : list string) (r : dict Q) : list string :=
  (acc ++ list_difference (dict_keys r) acc)%list.

(** [pd.DataFrame(data)].  From columns: the lists must have one length
    ([ValueError] otherwise), row [i] collects the [i]-th value of each.
    From records: the columns are the keys in order of first appearance, a
    key a record lacks is NaN in its row. *)
Definition pd_DataFrame (data : frame_data) : result DataFrame :=
  match data with
  | Columns d =>
      if same_lengths d
      then Return {| columns := dict_keys d;
                     rows := map (fun i => map (fun kc => snd kc !! i) d)
                                 (seq 0 (n_rows d)) |}
      else Raise ValueError
  | Records rs =>
      let cols := foldl add_keys [] rs in
      Return {| columns := cols;
                rows := map (fun r => map (dict_get r) cols) rs |}
  end.

(** ** [predict.py]: class [ModelPredictor] *)

(** The argument of [predict]: "Dict or list with feature values". *)
Inductive features : Type :=
| FeatureDict (d : dict Q)
| FeatureList (l : list Q).

Record Prediction : Type :=
  { prediction : Q; confidence : Q; model_rmse : Q }.

Module ModelPredictor.

Record t : Type :=
  { model_dir : string;
    model : pyobj;
    scaler : pyobj;
    feature_names : list string }.

(** [ModelPredictor(model_dir)]: the constructor stores the directory and
    calls [load_model], which reads the model, the scaler and the feature
    names, in this order, and no metrics.  A features file that holds the
    other JSON document is reported as [TypeError]. *)
Definition load_model (fs : FS) (dir : string) : result t :=
  let* m := pickle_load fs (os_path_join dir model_file) in
  let* s := pickle_load fs (os_path_join dir scaler_file) in
  let* j := json_load fs (os_path_join dir features_file) in
  match j with
  | JFeatures names =>
      Return {| model_dir := dir; model := m; scaler := s;
                feature_names := names |}
  | JMetrics _ => Raise TypeError
  end.

(** Lines 70-76 of [predict]: scale, apply the model, take element 0. *)
Definition predict_array (self : t) (features_array : matrix cell) : result Q :=
  let* scaled_features := scaler_transform (scaler self) features_array in
  let* prediction := model_predict (model self) scaled_features in
  match prediction with
  | y :: _ => Return y
  | [] => Raise IndexError
  end.

Definition predict (self : t) (x : features) : result Q :=
  let* features_array :=
    match x with
    | FeatureDict d =>
        let* vs := comprehension (dict_getitem d) (feature_names self) in
        Return [map Some vs]
    | FeatureList l => Return [map Some l]
    end in
  predict_array self features_array.

Definition predict_batch (self : t) (data_dict : frame_data)
  : result (list Q) :=
  let* df := pd_DataFrame data_dict in
  let* features := frame_values df (feature_names self) in
  let* scaled_features := scaler_transform (scaler self) features in
  model_predict (model self) scaled_features.

(** The metrics are read from [metrics.json] under [model_dir] at every
    call; [fs] is the file system at the time of the call. *)
Definition predict_with_confidence (fs : FS) (self : t) (x : features)
  : result Prediction :=
  let* p := predict self x in
  let* metrics := json_load fs (os_path_join (model_dir self) metrics_file) in
  match metrics with
  | JMetrics (Some m) =>
      Return {| prediction := p;
                confidence := r2 (metrics_test m);
                model_rmse := rmse (metrics_test m) |}
  | JMetrics None => Raise (KeyError "test")
  | JFeatures _ => Raise TypeError
  end.

(** A predictor that can serve: a fitted scaler and a fitted model over the
    features of the schema, one statistic pair and one coefficient per
    feature, every statistic finite and no scale zero (a fitted
    [StandardScaler] holds none). *)
Definition usable_stat (ms : cell * cell) : bool :=
  match ms with
  | (Some _, Some s) => negb (Qzero s)
  | _ => false
  end.


Definition with_feature_names (self : t) (names : list string) : t :=
  {| model_dir := model_dir self; model := model self;
     scaler := scaler self; feature_names := names |}.

End ModelPredictor.

(** ** [data_preprocessing.py]: class [DataProcessor] *)

Definition price : string := "price".

(** The finite values of a column: pandas and scikit-learn leave NaN out of
    their statistics. *)
Definition present (col : list cell) : list Q := omap id col.

Definition sum_sq_dev (xs : list Q) : Q :=
  Qsum (map (fun x => ((x - Qmean xs) * (x - Qmean xs))%Q) xs).

(** [Series.mean()] *)
Definition series_mean (col : list cell) : cell :=
  match present col with
  | [] => None
  | xs => Some (Qmean xs)
  end.

(** [df[mask]] with the mask computed row by row. *)
Definition boolean_index (keep : list cell -> bool) (df : DataFrame) : DataFrame :=
  {| columns := columns df; rows := List.filter keep (rows df) |}.

(** [X[indices]]: rows by position. *)
Definition take_rows {A : Type} (l : list A) (indices : list nat) : list A :=
  omap (fun i => l !! i) indices.

(** [test_size]: a proportion (float) or an absolute number (int). *)
Inductive size_spec : Type :=
| Fraction (q : Q)
| Count (n : Z).

(** [_validate_shuffle_split(n_samples, test_size, train_size=None)]: the
    sizes of the train and of the test part. *)
Definition validate_shuffle_split (n_samples : nat) (test_size : size_spec)
  : result (nat * nat) :=
  let* n_test :=
    match test_size with
    | Fraction q =>
        if Qltb 0 q && Qltb q 1
        then Return (Z.to_nat (Qceiling (q * inject_Z (Z.of_nat n_samples))))
        else Raise ValueError
    | Count n =>
        if Z.ltb 0 n && Z.ltb n (Z.of_nat n_samples)
        then Return (Z.to_nat n)
        else Raise ValueError
    end in
  let n_train := (n_samples - n_test)%nat in
  if Nat.eqb n_train 0 then Raise ValueError else Return (n_train, n_test).

Module DataProcessor.

Record t : Type :=
  { filepath : string;
    df : option DataFrame;
    X_train : option (matrix cell);
    X_test : option (matrix cell);
    y_train : option (list cell);
    y_test : option (list cell);
    scaler : option ScalerParams }.

(** [DataProcessor(filepath)] *)
Definition init (path : string) : t :=
  {| filepath := path; df := None; X_train := None; X_test := None;
     y_train := None; y_test := None; scaler := None |}.

Definition set_df (self : t) (d : DataFrame) : t :=
  {| filepath := filepath self; df := Some d; X_train := X_train self;
     X_test := X_test self; y_train := y_train self; y_test := y_test self;
     scaler := scaler self |}.

(** [df.drop('price', axis=1)] *)
Definition drop_price (d : DataFrame) : result DataFrame :=
  let* i := get_loc (columns d) price in
  let keep := List.filter (fun c => negb (String.eqb c price)) (columns d) in
  let* X := frame_values d keep in
  Return {| columns := keep; rows := X |}.


Section Numeric.

(** [np.sqrt] *)
Variable sqrt : Q -> Q.

(** [Series.std()]: the sample standard deviation (ddof = 1), NaN below
    two values. *)
Definition series_std (col : list cell) : cell :=
  let xs := present col in
  if Nat.ltb (length xs) 2 then None
  else Some (sqrt (sum_sq_dev xs / inject_Z (Z.of_nat (length xs - 1)))).

(** [np.abs((x - mean) / std)] for one value of the column; a division
    by zero leaves a non-finite value. *)
Definition z_score (mean std : cell) (c : cell) : cell :=
  match c, mean, std with
  | Some x, Some m, Some s =>
      if Qzero s then None else Some (Qabs ((x - m) / s))
  | _, _, _ => None
  end.

(** [z < threshold]; a comparison with NaN is false. *)
Definition below (threshold : Q) (z : cell) : bool :=
  match z with
  | Some v => Qltb v threshold
  | None => false
  end.

(** One turn of the loop of [remove_outliers]:
    [z_scores = np.abs((df[col] - df[col].mean()) / df[col].std())],
    [df = df[z_scores < threshold]]. *)
Definition outlier_step (threshold : Q) (d : DataFrame) (col : string)
  : result DataFrame :=
  let* i := get_loc (columns d) col in
  let c := map (cell_at i) (rows d) in
  let mean := series_mean c in
  let std := series_std c in
  Return (boolean_index
            (fun row => below threshold (z_score mean std (cell_at i row))) d).

(** [for col in columns: ...], on [self.df]: the frame reached when the
    loop ends or raises, and how it ended. *)
Fixpoint outlier_loop (threshold : Q) (cols : list string) (d : DataFrame)
  : result unit * DataFrame :=
  match cols with
  | [] => (Return tt, d)
  | col :: cols' =>
      match outlier_step threshold d col with
      | inl e => (inl e, d)
      | inr d' => outlier_loop threshold cols' d'
      end
  end.

(** [remove_outliers(columns=None, threshold=3)].  With [columns=None]
    the loop runs over [select_dtypes(include=[np.number]).columns]: every
    column of the frame, [price] among them.  Without a frame,
    [self.df.select_dtypes] or [len(self.df)] raises. *)
Definition remove_outliers (self : t) (cols : option (list string))
    (threshold : Q) : result DataFrame * t :=
  match df self with
  | None =>
      (Raise (match cols with None => AttributeError | Some _ => TypeError end),
       self)
  | Some d =>
      let cols := default (columns d) cols in
      let '(r, d') := outlier_loop threshold cols d in
      (let* _ := r in Return d', set_df self d')
  end.

(** [StandardScaler.fit]: per column the mean and the population standard
    deviation of the finite values, a zero deviation replaced by one. *)
Definition column_stats (col : list cell) : cell * cell :=
  match present col with
  | [] => (None, None)
  | xs =>
      let var := (sum_sq_dev xs / inject_Z (Z.of_nat (length xs)))%Q in
      (Some (Qmean xs), Some (if Qzero var then 1%Q else sqrt var))
  end.

Definition n_features (X : matrix cell) : nat := length (hd [] X).

Definition matrix_column (X : matrix cell) (j : nat) : list cell :=
  map (cell_at j) X.

Definition StandardScaler_fit (X : matrix cell) : result ScalerParams :=
  let* X := check_array true (n_features X) X in
  Return {| scaler_stats :=
              map (fun j => column_stats (matrix_column X j))
                  (seq 0 (n_features X)) |}.

Definition values_of (X : option (matrix cell)) : result (matrix cell) :=
  match X with
  | Some X => Return X
  | None => Raise ValueError
  end.

Definition set_scaling (self : t) (Xtr Xte : option (matrix cell))
    (s : option ScalerParams) : t :=
  {| filepath := filepath self; df := df self;
     X_train := Xtr; X_test := Xte;
     y_train := y_train self; y_test := y_test self;
     scaler := s |}.

(** [scale_features]: [self.X_train = self.scaler.fit_transform(self.X_train)],
    then [self.X_test = self.scaler.transform(self.X_test)].  [fit] first
    resets the scaler, so a fit that raises leaves it unfitted; what was
    assigned before a later call raises stays assigned. *)
Definition scale_features (self : t)
  : result (matrix cell * matrix cell) * t :=
  match (let* X := values_of (X_train self) in StandardScaler_fit X) with
  | inl e => (inl e, set_scaling self (X_train self) (X_test self) None)
  | inr s =>
      match (let* X := values_of (X_train self) in
             StandardScaler_transform s X) with
      | inl e =>
          (inl e, set_scaling self (X_train self) (X_test self) (Some s))
      | inr Xtr =>
          match (let* X := values_of (X_test self) in
                 StandardScaler_transform s X) with
          | inl e =>
              (inl e, set_scaling self (Some Xtr) (X_test self) (Some s))
          | inr Xte =>
              (Return (Xtr, Xte),
               set_scaling self (Some Xtr) (Some Xte) (Some s))
          end
      end
  end.

End Numeric.

Section Split.

(** The generator of numpy: [np.random.RandomState(seed)] and
    [rng.permutation(n)], which also advances the generator. *)
Variable RandomState : Type.
Variable RandomState_seed : Z -> RandomState.
Variable permutation : RandomState -> nat -> list nat * RandomState.

(** [train_test_split(X, y, test_size=..., random_state=...)] with the
    process-wide generator in state [g].  An integer [random_state]
    seeds a generator of its own; [None] draws from the global one. *)
Definition train_test_split (g : RandomState) (X : matrix cell)
    (y : list cell) (test_size : size_spec) (random_state : option Z)
  : result (matrix cell * matrix cell * list cell * list cell)
    * RandomState :=
  match validate_shuffle_split (length X) test_size with
  | inl e => (inl e, g)
  | inr (n_train, n_test) =>
      let '(perm, g') :=
        match random_state with
        | Some seed => (fst (permutation (RandomState_seed seed) (length X)), g)
        | None => permutation g (length X)
        end in
      let ind_test := take n_test perm in
      let ind_train := take n_train (drop n_test perm) in
      (Return (take_rows X ind_train, take_rows X ind_test,
               take_rows y ind_train, take_rows y ind_test), g')
  end.

Definition set_split (self : t) (Xtr Xte : matrix cell)
    (ytr yte : list cell) : t :=
  {| filepath := filepath self; df := df self;
     X_train := Some Xtr; X_test := Some Xte;
     y_train := Some ytr; y_test := Some yte;
     scaler := scaler self |}.

(** [prepare_train_test_split(test_size=0.2, random_state=42)] *)
Definition prepare_train_test_split (self : t) (g : RandomState)
    (test_size : size_spec) (random_state : option Z)
  : result (matrix cell * matrix cell * list cell * list cell)
    * t * RandomState :=
  match df self with
  | None => (Raise AttributeError, self, g)
  | Some d =>
      match (let* X := drop_price d in
             let* y := frame_column d price in
             Return (rows X, y)) with
      | inl e => (inl e, self, g)
      | inr (X, y) =>
          match train_test_split g X y test_size random_state with
          | (inl e, g') => (inl e, self, g')
          | (inr (Xtr, Xte, ytr, yte), g') =>
              (Return (Xtr, Xte, ytr, yte),
               set_split self Xtr Xte ytr yte, g')
          end
      end
  end.

End Split.

End DataProcessor.


Definition row_z_score (sqrt : Q -> Q) (d : DataFrame) (i : nat)
    (row : list cell) : cell :=
  let c := map (cell_at i) (rows d) in
  DataProcessor.z_score (series_mean c) (DataProcessor.series_std sqrt c)
    (cell_at i row).

Definition reference_step (sqrt : Q -> Q) (keep : cell -> bool) (d : DataFrame)
    (col : string) : DataFrame :=
  match column_index (columns d) col with
  | None => d
  | Some i => boolean_index (fun row => keep (row_z_score sqrt d i row)) d
  end.

Definition reference_run (sqrt : Q -> Q) (keep : cell -> bool)
    (cols : list string) (d : DataFrame) : DataFrame :=
  foldl (reference_step sqrt keep) d cols.



(** A square root to run the definitions with, to six decimals. *)
Definition sqrt_approx (q : Q) : Q :=
  Qmake (Z.sqrt (Qnum q * 10 ^ 12 / Z.pos (Qden q))) 1000000.

(** ** [train_model.py]: class [ModelTrainer] *)






Module ModelTrainer.

Record t : Type :=
  { model : pyobj;
    metrics : option Metrics;
    processor : option DataProcessor.t }.

(** [ModelTrainer()] *)
Definition init : t :=
  {| model := PyNone; metrics := None; processor := None |}.

Definition set_model (self : t) (m : pyobj) : t :=
  {| model := m; metrics := metrics self; processor := processor self |}.

Section Fit.

(** [scipy.linalg.lstsq]: a least-squares solution of [X w = y], the one
    of least norm when there are several. *)
Variable lstsq : matrix Q -> list Q -> list Q.

Definition column_means (X : matrix Q) (p : nat) : list Q :=
  map (fun j => Qmean (map (fun row => default 0%Q (row !! j)) X)) (seq 0 p).

(** [LinearRegression().fit(X, y)] with the default [fit_intercept]: the
    input is validated (at least one sample and one feature, finite
    values, as many targets as samples), centred, and solved. *)
Definition LinearRegression_fit (X : matrix cell) (y : list cell)
  : result LinearModel :=
  let* X := check_array false (DataProcessor.n_features X) X in
  if negb (forallb finite y) then Raise ValueError
  else if negb (Nat.eqb (length y) (length X)) then Raise ValueError
  else
    let Xv := map (map cell_value) X in
    let yv := map cell_value y in
    let X_offset := column_means Xv (DataProcessor.n_features X) in
    let y_offset := Qmean yv in
    let coef :=
      lstsq (map (fun row => zip_with Qminus row X_offset) Xv)
            (map (fun v => (v - y_offset)%Q) yv) in
    Return {| coef_ := coef;
              intercept_ := (y_offset - dot X_offset coef)%Q |}.

(** [train]: [self.model = LinearRegression()], then
    [self.model.fit(X_train, y_train)]. *)
Definition train (self : t) (X_train : matrix cell) (y_train : list cell)
  : result pyobj * t :=
  match LinearRegression_fit X_train y_train with
  | inl e => (inl e, set_model self (PyLinearRegression None))
  | inr m =>
      (Return (PyLinearRegression (Some m)),
       set_model self (PyLinearRegression (Some m)))
  end.

End Fit.



End ModelTrainer.

(** ** Vocabulary of the statements *)

(** The values a record holds for the features of the schema, in schema
    order. *)
Definition record_values (names : list string) (d : dict Q) : list Q :=
  map (fun f => default 0%Q (dict_get d f)) names.

(** A record with every feature of the schema (other keys are allowed). *)
Definition complete (names : list string) (d : dict Q) : Prop :=
  forall f, f ∈ names -> f ∈ dict_keys d.

Definition completeb (names : list string) (d : dict Q) : bool :=
  forallb (fun f => bool_decide (is_Some (dict_get d f))) names.

(** The records a batch stands for: the records themselves, or the rows of
    the table given by columns. *)
Definition record_at (d : dict (list Q)) (i : nat) : dict Q :=
  map (fun kc => (fst kc, default 0%Q (snd kc !! i))) d.

Definition columns_to_records (d : dict (list Q)) : list (dict Q) :=
  map (record_at d) (seq 0 (n_rows d)).

Definition batch_records (data : frame_data) : option (list (dict Q)) :=
  match data with
  | Records rs => Some rs
  | Columns d => if same_lengths d then Some (columns_to_records d) else None
  end.

(** The position of a column that is there. *)
Definition loc (cols : list string) (f : string) : nat :=
  default 0%nat (column_index cols f).

(** What the scaler and the model of a predictor do with a finite row of
    [k] values: the exception they raise, or the price they compute. *)
Definition row_verdict (p : ModelPredictor.t) (k : nat)
  : result (list cell -> Q) :=
  match ModelPredictor.scaler p with
  | PyStandardScaler (Some s) =>
      if Nat.eqb (length (scaler_stats s)) 0
         || negb (Nat.eqb k (length (scaler_stats s)))
      then Raise ValueError
      else
        match ModelPredictor.model p with
        | PyLinearRegression (Some m) =>
            if Nat.eqb (length (coef_ m)) 0
               || negb (Nat.eqb k (length (coef_ m)))
               || negb (forallb ModelPredictor.usable_stat (scaler_stats s))
            then Raise ValueError
            else Return (fun row => decision_row m (scale_row s row))
        | PyLinearRegression None => Raise NotFittedError
        | _ => Raise AttributeError
        end
  | PyStandardScaler None => Raise NotFittedError
  | _ => Raise AttributeError
  end.

(** Training data [LinearRegression.fit] accepts: at least one row and one
    column, rows of one width, finite values, one target per row.  The
    number of rows may be smaller than the number of columns. *)
Definition fit_ready (X : matrix cell) (y : list cell) : bool :=
  negb (Nat.eqb (length X) 0)
  && negb (Nat.eqb (DataProcessor.n_features X) 0)
  && forallb (fun row => Nat.eqb (length row) (DataProcessor.n_features X)) X
  && forallb (forallb finite) X
  && forallb finite y
  && Nat.eqb (length y) (length X).

(** ** A small bundle to run the definitions on *)

Module Demo.

(** Two features, [a] and [b]. *)
Definition schema : list string := ["a"; "b"].

Definition scaler : ScalerParams :=
  {| scaler_stats := [(Some 1%Q, Some 2%Q); (Some 0%Q, Some 1%Q)] |}.

Definition model : LinearModel :=
  {| coef_ := [3%Q; 5%Q]; intercept_ := 7%Q |}.

Definition split_metrics (q : Q) : SplitMetrics :=
  {| mse := 4%Q; rmse := 2%Q; mae := 1%Q; r2 := q |}.

Definition metrics : Metrics :=
  {| metrics_train := split_metrics (9 # 10);
     metrics_test := split_metrics (8 # 10) |}.

(** The metrics of a later training run. *)
Definition metrics' : Metrics :=
  {| metrics_train := split_metrics (7 # 10);
     metrics_test := split_metrics (5 # 10) |}.

Definition bundle_files (m : Metrics) : FS :=
  <[os_path_join "models" model_file := Pickle (PyLinearRegression (Some model))]>
  (<[os_path_join "models" scaler_file := Pickle (PyStandardScaler (Some scaler))]>
  (<[os_path_join "models" metrics_file := Json (JMetrics (Some m))]>
  (<[os_path_join "models" features_file := Json (JFeatures schema)]> ∅))).

Definition predictor : ModelPredictor.t :=
  {| ModelPredictor.model_dir := "models";
     ModelPredictor.model := PyLinearRegression (Some model);
     ModelPredictor.scaler := PyStandardScaler (Some scaler);
     ModelPredictor.feature_names := schema |}.

Definition house : dict Q := [("a", 3%Q); ("b", 2%Q)].
Definition house_reordered : dict Q := [("b", 2%Q); ("a", 3%Q)].
Definition house_extra : dict Q := [("z", 9%Q); ("b", 2%Q); ("a", 3%Q)].
Definition house_without_a : dict Q := [("b", 2%Q)].
Definition other_house : dict Q := [("a", 1%Q); ("b", 1%Q)].

(** A frame of twelve houses: the feature [a] alternates between two values,
    the price of the last house is far from the others. *)
Definition house_row (a p : Z) : list cell :=
  [Some (inject_Z a); Some (inject_Z p)].

Definition frame : DataFrame :=
  {| columns := ["a"; price];
     rows := [house_row 1 100; house_row 2 100; house_row 1 100;
              house_row 2 100; house_row 1 100; house_row 2 100;
              house_row 1 100; house_row 2 100; house_row 1 100;
              house_row 2 100; house_row 1 100; house_row 2 1000] |}.

(** Three houses whose feature [a] has sample deviation one. *)
Definition small_frame : DataFrame :=
  {| columns := ["a"; price];
     rows := [house_row (-1) 100; house_row 0 110; house_row 1 120] |}.

Definition processor (d : DataFrame) : DataProcessor.t :=
  DataProcessor.set_df (DataProcessor.init "data/house_data.csv") d.

(** A generator to run the split with: its state is a number, the
    permutation rotates the positions by it. *)
Definition rng_seed (seed : Z) : nat := Z.to_nat seed.
Definition rng_permutation (g n : nat) : list nat * nat :=
  (rotate g (seq 0 n), S g).

(** Processors with one training split and two different test splits. *)
Definition split_processor (X_test : matrix cell) : DataProcessor.t :=
  DataProcessor.set_split (processor small_frame)
    [[Some 0%Q]; [Some 1%Q]] X_test [Some 110%Q; Some 120%Q] [Some 100%Q].

(** A solver that answers the zero vector: the solution of least norm when
    the centred system is zero, as it is for a single row. *)
Definition zero_solution (X : matrix Q) (y : list Q) : list Q :=
  map (fun _ => 0%Q) (hd [] X).

(** A trainer about to save over the bundle above. *)
Definition model' : LinearModel :=
  {| coef_ := [4%Q; 6%Q]; intercept_ := 8%Q |}.

Definition scaler' : ScalerParams :=
  {| scaler_stats := [(Some 2%Q, Some 3%Q); (Some 1%Q, Some 1%Q)] |}.

Definition fitted_processor : DataProcessor.t :=
  {| DataProcessor.filepath := "data/house_data.csv";
     DataProcessor.df :=
       Some {| columns := ["a"; "b"; price];
               rows := [[Some 1%Q; Some 2%Q; Some 100%Q]] |};
     DataProcessor.X_train := None; DataProcessor.X_test := None;
     DataProcessor.y_train := None; DataProcessor.y_test := None;
     DataProcessor.scaler := Some scaler' |}.

Definition trainer : ModelTrainer.t :=
  {| ModelTrainer.model := PyLinearRegression (Some model');
     ModelTrainer.metrics := Some metrics';
     ModelTrainer.processor := Some fitted_processor |}.


End Demo.

(** ** The remaining functions of [predict.py], [train_model.py] and [app.py] *)


(** [d[k] = v]: a key that is there keeps its place, a new key goes last. *)
Fixpoint dict_set {V : Type} (d : dict V) (k : string) (v : V) : dict V :=
  match d with
  | [] => [(k, v)]
  | (k', v') :: d' =>
      if String.eqb k k' then (k', v) :: d' else (k', v') :: dict_set d' k v
  end.

Record ModelInfo : Type :=
  { coefficients : dict Q; intercept : Q }.

(** [get_model_info(feature_names)]: the intercept, and the coefficients
    keyed by [zip(feature_names, self.model.coef_)].  Only a fitted model
    has [intercept_] and [coef_]. *)
Definition get_model_info (self : ModelTrainer.t) (feature_names : list string)
  : result ModelInfo :=
  match ModelTrainer.model self with
  | PyLinearRegression (Some m) =>
      Return {| coefficients :=
                  foldl (fun d fc => dict_set d (fst fc) (snd fc)) []
                        (zip feature_names (coef_ m));
                intercept := intercept_ m |}
  | _ => Raise AttributeError
  end.

Module App.

(** What a route answers: the status code with its payload. *)
Inductive failure : Type :=
| ModelNotLoaded
| Caught (e : exn).

Inductive bad_request : Type :=
| NoDataProvided
| MissingFields (fields : list string).

Inductive response (A : Type) : Type :=
| Status200 (body : A)
| Status400 (error : bad_request)
| Status500 (error : failure).

Arguments Status200 {A} body.
Arguments Status400 {A} error.
Arguments Status500 {A} error.

Definition required_fields : list string :=
  ["square_feet"; "num_bedrooms"; "num_bathrooms"; "year_built";
   "distance_to_city"].

(** [[f for f in required_fields if f not in data]] *)
Definition missing_fields (data : dict Q) : list string :=
  List.filter (fun f => negb (bool_decide (is_Some (dict_get data f))))
              required_fields.

(** The route [/predict] on the JSON object of the request ([None] when the
    request has none); [predictor] is the global predictor, [None] when its
    construction failed at start-up.  Every exception of the body is caught
    and answered with status 500. *)
Definition predict (predictor : option ModelPredictor.t) (fs : FS)
    (data : option (dict Q)) : response Prediction :=
  match predictor with
  | None => Status500 ModelNotLoaded
  | Some predictor =>
      match data with
      | None | Some [] => Status400 NoDataProvided
      | Some data =>
          match missing_fields data with
          | (_ :: _) as missing => Status400 (MissingFields missing)
          | [] =>
              match (let* _ := ModelPredictor.predict predictor (FeatureDict data) in
                     ModelPredictor.predict_with_confidence fs predictor
                       (FeatureDict data)) with
              | inr result => Status200 result
              | inl e => Status500 (Caught e)
              end
          end
      end
  end.

(** [{key: [house[key] for house in data] for key in data[0].keys()}] *)
Definition data_dict (data : list (dict Q)) : result (dict (list Q)) :=
  match data with
  | [] => Raise IndexError
  | first :: _ =>
      comprehension
        (fun key =>
           let* col := comprehension (fun house => dict_getitem house key) data in
           Return (key, col))
        (dict_keys first)
  end.

Record BatchBody : Type :=
  { count : nat; predictions : list (dict Q * Q); model_confidence : Q }.

(** The route [/predict_batch] on a JSON list of objects.  The metrics are
    read from [models/metrics.json], whatever directory the predictor was
    loaded from. *)
Definition predict_batch (predictor : option ModelPredictor.t) (fs : FS)
    (data : list (dict Q)) : response BatchBody :=
  match predictor with
  | None => Status500 ModelNotLoaded
  | Some predictor =>
      match (let* d := data_dict data in
             let* ps := ModelPredictor.predict_batch predictor (Columns d) in
             let* metrics := json_load fs "models/metrics.json" in
             let* rows :=
               comprehension
                 (fun i => match data !! i, ps !! i with
                           | Some house, Some y => Return (house, y)
                           | _, _ => Raise IndexError
                           end)
                 (seq 0 (length ps)) in
             match metrics with
             | JMetrics (Some m) =>
                 Return {| count := length ps; predictions := rows;
                           model_confidence := r2 (metrics_test m) |}
             | JMetrics None => Raise (KeyError "test")
             | JFeatures _ => Raise TypeError
             end) with
      | inr body => Status200 body
      | inl e => Status500 (Caught e)
      end
  end.

End App.



(** The columns that [App.data_dict] builds when every record has the keys
    of the first one, and a record cut down to given keys. *)
Definition column_of (data : list (dict Q)) (key : string) : string * list Q :=
  (key, map (fun house => default 0%Q (dict_get house key)) data).

Definition restrict (keys : list string) (house : dict Q) : dict Q :=
  map (fun key => (key, default 0%Q (dict_get house key))) keys.


(** ** A bundle over the five features of the housing data *)

Module Housing.

Definition scaler : ScalerParams :=
  {| scaler_stats :=
       [(Some 3000%Q, Some 1000%Q); (Some 3%Q, Some 1%Q); (Some 2%Q, Some 1%Q);
        (Some 2000%Q, Some 10%Q); (Some 25%Q, Some 10%Q)] |}.

Definition model : LinearModel :=
  {| coef_ := [100000%Q; 50000%Q; 30000%Q; 10000%Q; (-5000)%Q];
     intercept_ := 500000%Q |}.

Definition predictor : ModelPredictor.t :=
  {| ModelPredictor.model_dir := "models";
     ModelPredictor.model := PyLinearRegression (Some model);
     ModelPredictor.scaler := PyStandardScaler (Some scaler);
     ModelPredictor.feature_names := App.required_fields |}.

(** The example house of [predict.py]. *)
Definition example_house : dict Q :=
  [("square_feet", 2500%Q); ("num_bedrooms", 4%Q); ("num_bathrooms", 5 # 2);
   ("year_built", 2010%Q); ("distance_to_city", 5%Q)].

End Housing.

(** The frame without its rows, and the columns but [price]. *)
Definition emptied (d : DataFrame) : DataFrame :=
  {| columns := columns d; rows := [] |}.

Definition feature_columns (d : DataFrame) : list string :=
  List.filter (fun c => negb (String.eqb c price)) (columns d).

(** A frame with a single house. *)
Definition lone_frame : DataFrame :=
  {| columns := ["a"; price]; rows := [[Some 1%Q; Some 100%Q]] |}.


(** * Properties *)

(** ** Results and dictionaries *)

Lemma rbind_raise {A B : Type} (e : exn) (k : A -> result B) :
  rbind (Raise e) k = Raise e.
Proof. reflexivity. Qed.

Lemma rbind_return {A B : Type} (a : A) (k : A -> result B) :
  rbind (Return a) k = k a.
Proof. reflexivity. Qed.

Lemma rbind_assoc {A B C : Type} (m : result A) (f : A -> result B)
    (g : B -> result C) :
  rbind (rbind m f) g = rbind m (fun x => rbind (f x) g).
Proof. by destruct m. Qed.

Lemma comprehension_ext {A B : Type} (f g : A -> result B) (l : list A) :
  (forall x, x ∈ l -> f x = g x) -> comprehension f l = comprehension g l.
Proof.
  induction l as [|x l IH]; intros Hfg; simpl; [reflexivity|].
  rewrite (Hfg x) by left.
  rewrite IH; [reflexivity|].
  intros y Hy. apply Hfg. by right.
Qed.

Lemma comprehension_return {A B : Type} (f : A -> result B) (g : A -> B)
    (l : list A) :
  (forall x, x ∈ l -> f x = Return (g x)) ->
  comprehension f l = Return (map g l).
Proof.
  induction l as [|x l IH]; intros Hfg; simpl; [reflexivity|].
  rewrite (Hfg x) by left. simpl.
  rewrite IH; [reflexivity|].
  intros y Hy. apply Hfg. by right.
Qed.

Lemma dict_get_None {V : Type} (d : dict V) (k : string) :
  dict_get d k = None <-> k ∉ dict_keys d.
Proof.
  unfold dict_keys.
  induction d as [|[k' v] d IH]; simpl.
  - split; [intros _; apply not_elem_of_nil | reflexivity].
  - rewrite not_elem_of_cons.
    destruct (String.eqb_spec k k') as [->|Hne].
    + split; [discriminate | intros [Hk _]; by destruct Hk].
    + rewrite IH. tauto.
Qed.

Lemma dict_get_is_Some {V : Type} (d : dict V) (k : string) :
  k ∈ dict_keys d -> exists v, dict_get d k = Some v.
Proof.
  intros Hk. destruct (dict_get d k) as [v|] eqn:E; [by exists v|].
  apply dict_get_None in E. contradiction.
Qed.

Lemma completeb_complete (names : list string) (d : dict Q) :
  completeb names d = true -> complete names d.
Proof.
  unfold completeb, complete. rewrite forallb_forall. intros H f Hf.
  apply list_elem_of_In in Hf. apply H, bool_decide_eq_true in Hf as [v Hv].
  destruct (decide (f ∈ dict_keys d)) as [|Hn]; [done|].
  apply dict_get_None in Hn. congruence.
Qed.

Lemma dict_get_perm {V : Type} (d d' : dict V) (k : string) :
  NoDup (dict_keys d) -> d ≡ₚ d' -> dict_get d k = dict_get d' k.
Proof.
  unfold dict_keys.
  intros Hnd Hp. revert Hnd.
  induction Hp as [|[k1 v1] d d' Hp IH|[k1 v1] [k2 v2] d|d d' d'' Hp1 IH1 Hp2 IH2];
    intros Hnd; simpl.
  - reflexivity.
  - apply NoDup_cons in Hnd as [_ Hnd].
    destruct (String.eqb k k1); [reflexivity | by apply IH].
  - simpl in Hnd.
    apply NoDup_cons in Hnd as [Hk _].
    destruct (String.eqb_spec k k1) as [E1|]; destruct (String.eqb_spec k k2) as [E2|];
      try reflexivity.
    exfalso. apply Hk. rewrite <- E1, <- E2. left.
  - rewrite IH1 by done. apply IH2.
    rewrite <- Hp1. exact Hnd.
Qed.

Lemma getitem_complete (names : list string) (d : dict Q) :
  (forall f, f ∈ names -> f ∈ dict_keys d) ->
  comprehension (dict_getitem d) names = Return (record_values names d).
Proof.
  intros Hc. apply comprehension_return.
  intros f Hf. unfold dict_getitem.
  destruct (dict_get_is_Some d f (Hc f Hf)) as [v ->]. reflexivity.
Qed.


Lemma record_values_length (names : list string) (d : dict Q) :
  length (record_values names d) = length names.
Proof. unfold record_values. by rewrite length_map. Qed.


(** ** The estimators on finite rows of one width *)

Lemma forallb_finite_Some (vs : list Q) : forallb finite (map Some vs) = true.
Proof. induction vs; simpl; auto. Qed.

Lemma scale_row_length (s : ScalerParams) (row : list cell) :
  length row = length (scaler_stats s) ->
  length (scale_row s row) = length row.
Proof. intros H. unfold scale_row. rewrite length_zip_with. lia. Qed.

Lemma scale_cells_finite (vs : list Q) (stats : list (cell * cell)) :
  length vs = length stats ->
  forallb finite (zip_with scale_cell (map Some vs) stats)
  = forallb ModelPredictor.usable_stat stats.
Proof.
  revert stats. induction vs as [|v vs IH]; intros [|[[m|] [sd|]] stats] Hl;
    simpl in *; try discriminate; try reflexivity.
  destruct (Qzero sd); simpl; [reflexivity|]. apply IH. lia.
Qed.


(** ** Single predictions *)


(** C7.  Two records with the same bindings in a different key order give
    the same outcome of [predict]: the values are fetched by name, in the
    order of the schema.  This holds for every record, whether it has all
    the features of the schema or not. *)
Theorem predict_key_order_invariant (p : ModelPredictor.t) (d d' : dict Q) :
  NoDup (dict_keys d) ->
  d ≡ₚ d' ->
  ModelPredictor.predict p (FeatureDict d')
  = ModelPredictor.predict p (FeatureDict d).
Proof.
  intros Hnd Hp. unfold ModelPredictor.predict.
  rewrite (comprehension_ext (dict_getitem d') (dict_getitem d)); [reflexivity|].
  intros f _. unfold dict_getitem.
  by rewrite (dict_get_perm d d' f Hnd Hp).
Qed.

Lemma check_array_raises (a : bool) (n : nat) (X : matrix cell) (e : exn) :
  check_array a n X = inl e -> e = ValueError.
Proof.
  unfold check_array.
  repeat match goal with |- context [if ?b then _ else _] => destruct b end;
    unfold Raise, Return; congruence.
Qed.

Lemma predict_array_not_KeyError (p : ModelPredictor.t) (X : matrix cell)
    (k : string) :
  ModelPredictor.predict_array p X <> Raise (KeyError k).
Proof.
  unfold ModelPredictor.predict_array, scaler_transform, model_predict.
  destruct (ModelPredictor.scaler p) as [|?|[s|]]; try discriminate.
  unfold StandardScaler_transform.
  destruct (check_array true _ X) as [e|X'] eqn:E1.
  { apply check_array_raises in E1 as ->. discriminate. }
  simpl.
  destruct (ModelPredictor.model p) as [|[m|]|?]; try discriminate.
  unfold LinearRegression_predict.
  destruct (check_array false _ _) as [e|X''] eqn:E2.
  { apply check_array_raises in E2 as ->. discriminate. }
  simpl. destruct (map _ X''); discriminate.
Qed.

(** C10.  On a list, [predict] never consults the schema: the outcome is the
    same whatever the feature names are, it is the outcome of scaling and
    applying the model to the values in the order given, and it is never the
    key error of the missing-feature contract.  On a consistent bundle a
    record with every feature and the list of its values in schema order
    give the same outcome. *)
Theorem predict_list_skips_schema (p : ModelPredictor.t) (l : list Q) :
  (forall names,
      ModelPredictor.predict (ModelPredictor.with_feature_names p names)
        (FeatureList l)
      = ModelPredictor.predict p (FeatureList l))
  /\ ModelPredictor.predict p (FeatureList l)
     = ModelPredictor.predict_array p [map Some l]
  /\ (forall k, ModelPredictor.predict p (FeatureList l) <> Raise (KeyError k))
  /\ (forall d, complete (ModelPredictor.feature_names p) d ->
        ModelPredictor.predict p
          (FeatureList (record_values (ModelPredictor.feature_names p) d))
        = ModelPredictor.predict p (FeatureDict d)).
Proof.
  split; [reflexivity|]. split; [reflexivity|]. split.
  - intros k. apply predict_array_not_KeyError.
  - intros d Hd. unfold ModelPredictor.predict.
    rewrite getitem_complete by exact Hd. reflexivity.
Qed.

Lemma predict_list_skips_schema_witness :
  ModelPredictor.predict Demo.predictor
    (FeatureList (record_values Demo.schema Demo.house_extra))
  = ModelPredictor.predict Demo.predictor (FeatureDict Demo.house_extra).
Proof.
  destruct (predict_list_skips_schema Demo.predictor [3%Q; 2%Q]) as (_ & _ & _ & H).
  apply (H Demo.house_extra). apply completeb_complete. reflexivity.
Defined.

(** ** Batches *)

Lemma forallb_const {A : Type} (f : A -> bool) (b : bool) (l : list A) :
  l <> [] -> Forall (fun x => f x = b) l -> forallb f l = b.
Proof.
  intros Hne Hall. induction Hall as [|x l Hx Hall IH]; [done|].
  simpl. rewrite Hx. destruct l as [|y l].
  - simpl. by destruct b.
  - rewrite IH by done. by destruct b.
Qed.

Lemma check_array_uniform (allow : bool) (n k : nat) (u : bool) (X : matrix cell) :
  X <> [] ->
  Forall (fun row => length row = k /\ forallb finite row = u) X ->
  check_array allow n X
  = if Nat.eqb n 0 || negb (Nat.eqb k n) || (negb allow && negb u)
    then Raise ValueError else Return X.
Proof.
  intros Hne Hall. unfold check_array.
  assert (E0 : Nat.eqb (length X) 0 = false) by (by destruct X).
  rewrite E0.
  destruct (Nat.eqb n 0); [reflexivity|].
  rewrite (forallb_const _ (Nat.eqb k n) X Hne).
  2:{ eapply Forall_impl; [exact Hall|]. intros r [-> _]. reflexivity. }
  destruct (Nat.eqb k n); [|reflexivity].
  rewrite (forallb_const _ u X Hne); [reflexivity|].
  eapply Forall_impl; [exact Hall|]. intros r [_ Hr]. exact Hr.
Qed.

Lemma finite_row_values (row : list cell) :
  forallb finite row = true -> row = map Some (map cell_value row).
Proof.
  induction row as [|[x|] row IH]; simpl; intros H; try discriminate; [done|].
  by rewrite <- IH.
Qed.

(** The scaler and the model treat the rows of a batch one by one. *)
Lemma batch_verdict (p : ModelPredictor.t) (k : nat) (X : matrix cell) :
  X <> [] ->
  Forall (fun row => length row = k /\ forallb finite row = true) X ->
  rbind (scaler_transform (ModelPredictor.scaler p) X)
        (model_predict (ModelPredictor.model p))
  = match row_verdict p k with
    | inl e => Raise e
    | inr g => Return (map g X)
    end.
Proof.
  intros Hne Hall. unfold row_verdict, scaler_transform.
  destruct (ModelPredictor.scaler p) as [|?|[s|]]; try reflexivity.
  unfold StandardScaler_transform, scaler_n_features_in_.
  rewrite (check_array_uniform true _ k true X Hne Hall).
  simpl andb. rewrite orb_false_r.
  destruct (Nat.eqb (length (scaler_stats s)) 0 || negb (Nat.eqb k (length (scaler_stats s))))
    eqn:E1; [reflexivity|].
  apply orb_false_elim in E1 as [_ E1]. apply negb_false_iff, Nat.eqb_eq in E1.
  simpl. unfold model_predict.
  destruct (ModelPredictor.model p) as [|[m|]|?]; try reflexivity.
  unfold LinearRegression_predict.
  rewrite (check_array_uniform false _ k
             (forallb ModelPredictor.usable_stat (scaler_stats s))).
  - simpl andb.
    destruct (Nat.eqb (length (coef_ m)) 0 || negb (Nat.eqb k (length (coef_ m)))
              || negb (forallb ModelPredictor.usable_stat (scaler_stats s)));
      [reflexivity|].
    simpl. by rewrite map_map.
  - destruct X; [done|discriminate].
  - apply Forall_map. eapply Forall_impl; [exact Hall|].
    intros row [Hl Hf]. simpl. split.
    + rewrite scale_row_length; congruence.
    + rewrite (finite_row_values row Hf). unfold scale_row.
      apply scale_cells_finite. rewrite length_map. congruence.
Qed.

Lemma predict_array_verdict (p : ModelPredictor.t) (row : list cell) :
  forallb finite row = true ->
  ModelPredictor.predict_array p [row]
  = match row_verdict p (length row) with
    | inl e => Raise e
    | inr g => Return (g row)
    end.
Proof.
  intros Hf.
  assert (H : rbind (scaler_transform (ModelPredictor.scaler p) [row])
                    (model_predict (ModelPredictor.model p))
              = match row_verdict p (length row) with
                | inl e => Raise e
                | inr g => Return (map g [row])
                end).
  { apply batch_verdict; [done | by repeat constructor]. }
  transitivity
    (rbind (rbind (scaler_transform (ModelPredictor.scaler p) [row])
                  (model_predict (ModelPredictor.model p)))
           (fun prediction =>
              match prediction with
              | y :: _ => Return y
              | [] => Raise IndexError
              end)).
  - unfold ModelPredictor.predict_array. symmetry. apply rbind_assoc.
  - rewrite H. destruct (row_verdict p (length row)); reflexivity.
Qed.

Lemma comprehension_verdict {A B : Type} (f : A -> result B) (v : result (A -> B))
    (l : list A) :
  l <> [] ->
  (forall x, x ∈ l ->
     f x = match v with inl e => Raise e | inr g => Return (g x) end) ->
  comprehension f l = match v with inl e => Raise e | inr g => Return (map g l) end.
Proof.
  intros Hne Hf. destruct v as [e|g].
  - destruct l as [|x l]; [done|]. simpl. rewrite (Hf x) by left. reflexivity.
  - by apply comprehension_return.
Qed.

(** A batch of finite rows of one width is served as its rows are. *)
Lemma batch_rowwise (p : ModelPredictor.t) (k : nat) (X : matrix cell) :
  X <> [] ->
  Forall (fun row => length row = k /\ forallb finite row = true) X ->
  rbind (scaler_transform (ModelPredictor.scaler p) X)
        (model_predict (ModelPredictor.model p))
  = comprehension (fun row => ModelPredictor.predict_array p [row]) X.
Proof.
  intros Hne Hall. rewrite (batch_verdict p k X Hne Hall).
  symmetry. apply comprehension_verdict; [done|].
  intros row Hrow. rewrite Forall_forall in Hall.
  destruct (Hall row Hrow) as [Hl Hf].
  rewrite predict_array_verdict by exact Hf. by rewrite Hl.
Qed.

Lemma comprehension_map {A B C : Type} (f : B -> result C) (h : A -> B)
    (l : list A) :
  comprehension f (map h l) = comprehension (fun x => f (h x)) l.
Proof. induction l as [|x l IH]; simpl; [reflexivity | by rewrite IH]. Qed.


(** *** The frame of a batch *)

Lemma column_index_Some (cols : list string) (f : string) :
  f ∈ cols -> exists j, column_index cols f = Some j /\ cols !! j = Some f.
Proof.
  induction cols as [|c cols IH]; intros Hf; [by apply elem_of_nil in Hf|].
  simpl. destruct (String.eqb_spec f c) as [->|Hne].
  - by exists 0%nat.
  - apply elem_of_cons in Hf as [?|Hf]; [done|].
    destruct (IH Hf) as (j & -> & Hj). by exists (S j).
Qed.

Lemma column_index_elem (cols : list string) (f : string) (i : nat) :
  column_index cols f = Some i -> f ∈ cols.
Proof.
  revert i. induction cols as [|c l IH]; intros i H; simpl in H; [discriminate|].
  destruct (String.eqb_spec f c) as [->|Hne]; [left|]. right.
  destruct (column_index l f) as [j|]; [by apply (IH j) | by simplify_eq/=].
Qed.

Lemma get_loc_all (cols names : list string) :
  (forall f, f ∈ names -> f ∈ cols) ->
  comprehension (get_loc cols) names = Return (map (loc cols) names).
Proof.
  intros H. apply comprehension_return. intros f Hf.
  unfold get_loc, loc. destruct (column_index_Some cols f (H f Hf)) as (j & -> & _).
  reflexivity.
Qed.

Lemma add_keys_acc (acc : list string) (rs : list (dict Q)) (f : string) :
  f ∈ acc -> f ∈ foldl add_keys acc rs.
Proof.
  revert acc. induction rs as [|r rs IH]; intros acc Hf; simpl; [done|].
  apply IH. unfold add_keys. apply elem_of_app. by left.
Qed.

Lemma add_keys_record (acc : list string) (rs : list (dict Q)) (r : dict Q)
    (f : string) :
  r ∈ rs -> f ∈ dict_keys r -> f ∈ foldl add_keys acc rs.
Proof.
  revert acc. induction rs as [|r0 rs IH]; intros acc Hr Hf;
    [by apply elem_of_nil in Hr|].
  simpl. apply elem_of_cons in Hr as [->|Hr].
  - apply add_keys_acc. unfold add_keys. apply elem_of_app.
    destruct (decide (f ∈ acc)); [by left|].
    right. by apply list_elem_of_difference.
  - by apply IH.
Qed.

Lemma frame_values_records (names : list string) (rs : list (dict Q)) :
  rs <> [] ->
  Forall (complete names) rs ->
  rbind (pd_DataFrame (Records rs)) (fun df => frame_values df names)
  = Return (map (fun r => map Some (record_values names r)) rs).
Proof.
  intros Hne Hall. simpl. unfold frame_values. simpl.
  set (cols := foldl add_keys [] rs).
  assert (Hin : forall f, f ∈ names -> f ∈ cols).
  { intros f Hf. destruct rs as [|r rs']; [done|].
    apply (add_keys_record [] (r :: rs') r f); [left|].
    apply Forall_cons in Hall as [Hr _]. by apply Hr. }
  rewrite get_loc_all by exact Hin. simpl.
  f_equal. rewrite map_map. apply map_ext_in.
  intros r Hr. unfold take_cells, record_values. rewrite !map_map.
  apply map_ext_in. intros f Hf.
  apply list_elem_of_In in Hr, Hf.
  rewrite Forall_forall in Hall.
  destruct (dict_get_is_Some r f (Hall r Hr f Hf)) as [v Hv].
  destruct (column_index_Some cols f (Hin f Hf)) as (j & Hj & Hc).
  unfold loc, cell_at. rewrite Hj. simpl.
  rewrite list_lookup_fmap, Hc. simpl. by rewrite Hv.
Qed.

Lemma column_index_dict (d : list (string * list Q)) (f : string) (j : nat) :
  column_index (map fst d) f = Some j ->
  exists col, d !! j = Some (f, col) /\ dict_get d f = Some col.
Proof.
  revert j.
  induction d as [|[k col] d IH]; intros j; simpl; [discriminate|].
  destruct (String.eqb_spec f k) as [->|Hne].
  - intros [= <-]. by exists col.
  - destruct (column_index (map fst d) f) as [j'|]; intros H; simplify_eq/=.
    by apply IH.
Qed.

Lemma same_lengths_all (d : dict (list Q)) :
  same_lengths d = true -> Forall (fun kc => length (snd kc) = n_rows d) d.
Proof.
  destruct d as [|[k col] d]; simpl; intros H; [constructor|].
  constructor; [reflexivity|].
  rewrite forallb_forall in H. apply Forall_forall.
  intros kc Hkc. apply Nat.eqb_eq. apply H. by apply list_elem_of_In.
Qed.

Lemma record_at_keys (d : dict (list Q)) (i : nat) :
  dict_keys (record_at d i) = dict_keys d.
Proof.
  unfold dict_keys, record_at. apply list_eq. intros j.
  rewrite !list_lookup_fmap. by destruct (_ !! _).
Qed.

Lemma record_at_get (d : dict (list Q)) (i : nat) (f : string) :
  dict_get (record_at d i) f
  = (fun col => default 0%Q (col !! i)) <$> dict_get d f.
Proof.
  unfold record_at. induction d as [|[k col] d IH]; simpl; [reflexivity|].
  destruct (String.eqb f k); [reflexivity | exact IH].
Qed.

Lemma frame_values_columns (names : list string) (d : dict (list Q)) :
  same_lengths d = true ->
  (forall f, f ∈ names -> f ∈ dict_keys d) ->
  rbind (pd_DataFrame (Columns d)) (fun df => frame_values df names)
  = Return (map (fun r => map Some (record_values names r))
                (columns_to_records d)).
Proof.
  intros Hs Hin. simpl. rewrite Hs. simpl. unfold frame_values. simpl.
  rewrite get_loc_all by exact Hin. simpl.
  f_equal. unfold columns_to_records. rewrite !map_map. apply map_ext_in.
  intros i Hi. apply in_seq in Hi.
  unfold take_cells, record_values. rewrite !map_map.
  apply map_ext_in. intros f Hf. apply list_elem_of_In in Hf.
  destruct (column_index_Some _ f (Hin f Hf)) as (j & Hj & _).
  destruct (column_index_dict d f j Hj) as (col & Hd & Hg).
  unfold loc, cell_at. rewrite Hj. simpl.
  rewrite list_lookup_fmap, Hd. simpl.
  rewrite record_at_get, Hg. simpl.
  assert (Hlen : length col = n_rows d).
  { pose proof (same_lengths_all d Hs) as Hall. rewrite Forall_forall in Hall.
    apply (Hall (f, col)). apply list_elem_of_lookup. by exists j. }
  destruct (lookup_lt_is_Some_2 col i) as [x Hx]; [lia|].
  by rewrite Hx.
Qed.

Lemma frame_values_batch (names : list string) (data : frame_data)
    (rs : list (dict Q)) :
  batch_records data = Some rs ->
  rs <> [] ->
  Forall (complete names) rs ->
  rbind (pd_DataFrame data) (fun df => frame_values df names)
  = Return (map (fun r => map Some (record_values names r)) rs).
Proof.
  destruct data as [d|rs']; simpl batch_records.
  - destruct (same_lengths d) eqn:Hs; [|discriminate].
    intros [= <-] Hne Hall. apply frame_values_columns; [exact Hs|].
    unfold columns_to_records in *.
    destruct (n_rows d) as [|n]; [done|]. simpl in Hall.
    apply Forall_cons in Hall as [H0 _].
    intros f Hf. rewrite <- (record_at_keys d 0). by apply H0.
  - intros [= <-]. apply frame_values_records.
Qed.


Lemma predict_complete (p : ModelPredictor.t) (d : dict Q) :
  complete (ModelPredictor.feature_names p) d ->
  ModelPredictor.predict p (FeatureDict d)
  = ModelPredictor.predict_array p
      [map Some (record_values (ModelPredictor.feature_names p) d)].
Proof.
  intros Hd. unfold ModelPredictor.predict.
  by rewrite getitem_complete.
Qed.


(** The batch is served as the sequence of its records is, record by record,
    failures included. *)
Lemma predict_batch_rowwise (p : ModelPredictor.t) (data : frame_data)
    (rs : list (dict Q)) :
  batch_records data = Some rs ->
  rs <> [] ->
  Forall (complete (ModelPredictor.feature_names p)) rs ->
  ModelPredictor.predict_batch p data
  = comprehension (fun r => ModelPredictor.predict p (FeatureDict r)) rs.
Proof.
  intros Hb Hne Hall.
  transitivity
    (rbind (rbind (pd_DataFrame data)
                  (fun df => frame_values df (ModelPredictor.feature_names p)))
           (fun X => rbind (scaler_transform (ModelPredictor.scaler p) X)
                           (model_predict (ModelPredictor.model p)))).
  { unfold ModelPredictor.predict_batch. by destruct (pd_DataFrame data). }
  rewrite (frame_values_batch _ data rs Hb Hne Hall). simpl.
  rewrite (batch_rowwise p (length (ModelPredictor.feature_names p))).
  - rewrite comprehension_map. apply comprehension_ext.
    intros r Hr. rewrite Forall_forall in Hall.
    symmetry. apply predict_complete. by apply Hall.
  - by destruct rs.
  - apply Forall_map. apply Forall_forall. intros r _. simpl. split.
    + by rewrite length_map, record_values_length.
    + apply forallb_finite_Some.
Qed.





Lemma predict_key_order_invariant_witness :
  ModelPredictor.predict Demo.predictor (FeatureDict Demo.house_reordered)
  = ModelPredictor.predict Demo.predictor (FeatureDict Demo.house).
Proof.
  apply (predict_key_order_invariant Demo.predictor Demo.house Demo.house_reordered).
  - apply (bool_decide_unpack _). vm_compute. exact I.
  - apply perm_swap.
Defined.



(** ** Confidence *)

Lemma load_model_dir (fs : FS) (dir : string) (p : ModelPredictor.t) :
  ModelPredictor.load_model fs dir = Return p -> ModelPredictor.model_dir p = dir.
Proof.
  unfold ModelPredictor.load_model.
  destruct (pickle_load fs _) as [|m]; [discriminate|]. simpl.
  destruct (pickle_load fs _) as [|sc]; [discriminate|]. simpl.
  destruct (json_load fs _) as [|[?|names]]; try discriminate. simpl.
  by intros [= <-].
Qed.

(** C2, amended.  A predictor loaded from a directory returns, with the
    price of [predict], the test r2 and the test rmse that [metrics.json] in
    that directory holds when [predict_with_confidence] is called: the file
    is read at every call and is no part of what [load_model] loads.  The
    two figures do not depend on the record, and they are those of the
    loaded bundle as long as the file is the one that was there at load
    time. *)
Theorem predict_with_confidence_reads_metrics (fs_load fs : FS) (dir : string)
    (p : ModelPredictor.t) (x : features) (price : Q) (m : Metrics) :
  ModelPredictor.load_model fs_load dir = Return p ->
  ModelPredictor.predict p x = Return price ->
  fs !! os_path_join dir metrics_file = Some (Json (JMetrics (Some m))) ->
  ModelPredictor.predict_with_confidence fs p x
  = Return {| prediction := price;
              confidence := r2 (metrics_test m);
              model_rmse := rmse (metrics_test m) |}.
Proof.
  intros Hload Hp Hm. apply load_model_dir in Hload.
  unfold ModelPredictor.predict_with_confidence, json_load.
  rewrite Hp, Hload. simpl. rewrite Hm. reflexivity.
Qed.

Lemma predict_with_confidence_reads_metrics_witness :
  ModelPredictor.predict_with_confidence (Demo.bundle_files Demo.metrics)
    Demo.predictor (FeatureDict Demo.house)
  = Return {| prediction := 40 # 2; confidence := 8 # 10; model_rmse := 2 |}.
Proof.
  apply (predict_with_confidence_reads_metrics
           (Demo.bundle_files Demo.metrics) (Demo.bundle_files Demo.metrics)
           "models" Demo.predictor (FeatureDict Demo.house) (40 # 2) Demo.metrics);
    vm_compute; reflexivity.
Defined.

(** C2, as worded, fails once the metrics file is replaced after the
    predictor was loaded: the same predictor, on the same record, reports
    the figures of the new file, not those of the bundle it serves. *)
Lemma confidence_follows_the_file :
  ModelPredictor.load_model (Demo.bundle_files Demo.metrics) "models"
  = Return Demo.predictor
  /\ ModelPredictor.predict_with_confidence (Demo.bundle_files Demo.metrics)
       Demo.predictor (FeatureDict Demo.house)
     = Return {| prediction := 40 # 2; confidence := 8 # 10; model_rmse := 2 |}
  /\ ModelPredictor.predict_with_confidence
       (<[os_path_join "models" metrics_file := Json (JMetrics (Some Demo.metrics'))]>
          (Demo.bundle_files Demo.metrics))
       Demo.predictor (FeatureDict Demo.house)
     = Return {| prediction := 40 # 2; confidence := 5 # 10; model_rmse := 2 |}.
Proof. repeat split; vm_compute; reflexivity. Qed.

(** ** Outlier removal *)

Lemma reference_step_columns (sqrt : Q -> Q) (keep : cell -> bool)
    (d : DataFrame) (col : string) :
  columns (reference_step sqrt keep d col) = columns d.
Proof.
  unfold reference_step. by destruct (column_index (columns d) col).
Qed.

Lemma outlier_step_reference (sqrt : Q -> Q) (threshold : Q) (d : DataFrame)
    (col : string) :
  col ∈ columns d ->
  DataProcessor.outlier_step sqrt threshold d col
  = Return (reference_step sqrt (DataProcessor.below threshold) d col).
Proof.
  intros Hc. destruct (column_index_Some _ _ Hc) as (i & Hi & _).
  unfold DataProcessor.outlier_step, reference_step, get_loc.
  rewrite Hi. reflexivity.
Qed.

Lemma outlier_loop_reference (sqrt : Q -> Q) (threshold : Q)
    (cols : list string) (d : DataFrame) :
  (forall c, c ∈ cols -> c ∈ columns d) ->
  DataProcessor.outlier_loop sqrt threshold cols d
  = (Return tt, reference_run sqrt (DataProcessor.below threshold) cols d).
Proof.
  revert d. induction cols as [|c cols IH]; intros d Hin; [reflexivity|].
  simpl. rewrite outlier_step_reference by (apply Hin; left).
  unfold reference_run in *. simpl. apply IH.
  intros c' Hc'. rewrite reference_step_columns. apply Hin. by right.
Qed.








(** ** Scaling *)

Lemma scale_features_scaler (sqrt : Q -> Q) (self : DataProcessor.t) :
  DataProcessor.scaler (snd (DataProcessor.scale_features sqrt self))
  = match rbind (DataProcessor.values_of (DataProcessor.X_train self))
                (DataProcessor.StandardScaler_fit sqrt) with
    | inr s => Some s
    | inl _ => None
    end.
Proof.
  unfold DataProcessor.scale_features.
  destruct (rbind (DataProcessor.values_of (DataProcessor.X_train self)) _)
    as [e|s]; [reflexivity|].
  destruct (rbind (DataProcessor.values_of (DataProcessor.X_train self)) _)
    as [e|Xtr]; [reflexivity|].
  destruct (rbind (DataProcessor.values_of (DataProcessor.X_test self)) _)
    as [e|Xte]; reflexivity.
Qed.

(** C5.  The scaler that [scale_features] leaves in the processor is the
    one fitted on the training split, or none when that fit raises: two
    processors with the same training rows end with the same scaler
    parameters, whatever their test rows, frames and targets are. *)
Theorem scaler_depends_on_training_split (sqrt : Q -> Q)
    (p1 p2 : DataProcessor.t) :
  DataProcessor.X_train p1 = DataProcessor.X_train p2 ->
  DataProcessor.scaler (snd (DataProcessor.scale_features sqrt p1))
  = DataProcessor.scaler (snd (DataProcessor.scale_features sqrt p2)).
Proof.
  intros H. rewrite !scale_features_scaler. by rewrite H.
Qed.

Lemma scaler_depends_on_training_split_witness :
  DataProcessor.scaler
    (snd (DataProcessor.scale_features sqrt_approx
            (Demo.split_processor [[Some (-1)%Q]])))
  = DataProcessor.scaler
      (snd (DataProcessor.scale_features sqrt_approx
              (Demo.split_processor [[Some 1000%Q]; [Some 7%Q]]))).
Proof.
  apply (scaler_depends_on_training_split sqrt_approx
           (Demo.split_processor [[Some (-1)%Q]])
           (Demo.split_processor [[Some 1000%Q]; [Some 7%Q]])).
  reflexivity.
Defined.

(** ** Splitting *)

Section SplitProperties.

Variable RandomState : Type.
Variable RandomState_seed : Z -> RandomState.
Variable permutation : RandomState -> nat -> list nat * RandomState.

Lemma split_keeps_frame (self self' : DataProcessor.t) (g g' : RandomState)
    (test_size : size_spec) (random_state : option Z)
    (r : result (matrix cell * matrix cell * list cell * list cell)) :
  DataProcessor.prepare_train_test_split RandomState RandomState_seed
    permutation self g test_size random_state = (r, self', g') ->
  DataProcessor.df self' = DataProcessor.df self.
Proof.
  unfold DataProcessor.prepare_train_test_split.
  destruct (DataProcessor.df self) as [d|] eqn:E; [|by intros [= _ <- _]].
  destruct (rbind (DataProcessor.drop_price d) _) as [e|[X y]];
    [by intros [= _ <- _]|].
  destruct (DataProcessor.train_test_split _ _ _ _ _ _ _ _)
    as [[e|[[[Xtr Xte] ytr] yte]] g'']; by intros [= _ <- _].
Qed.

Lemma split_seeded (p1 p2 : DataProcessor.t) (g1 g2 : RandomState)
    (test_size : size_spec) (seed : Z) :
  DataProcessor.df p1 = DataProcessor.df p2 ->
  fst (fst (DataProcessor.prepare_train_test_split RandomState
              RandomState_seed permutation p1 g1 test_size (Some seed)))
  = fst (fst (DataProcessor.prepare_train_test_split RandomState
                RandomState_seed permutation p2 g2 test_size (Some seed)))
  /\ snd (DataProcessor.prepare_train_test_split RandomState
            RandomState_seed permutation p1 g1 test_size (Some seed)) = g1.
Proof.
  intros Hdf. unfold DataProcessor.prepare_train_test_split.
  rewrite <- Hdf.
  destruct (DataProcessor.df p1) as [d|]; [|by split].
  destruct (rbind (DataProcessor.drop_price d) _) as [e|[X y]]; [by split|].
  unfold DataProcessor.train_test_split.
  destruct (validate_shuffle_split (length X) test_size) as [e|[n_train n_test]];
    by split.
Qed.

(** C6.  With an integer seed the split is a function of the frame, the test
    size and the seed alone.  Two processors that hold the same frame get
    the same outcome [r1 = r2], the same four parts element for element or
    the same exception, whatever the states [g1] and [g2] of the
    process-wide generator, which the call leaves as it was; and a second
    call on the processor the first call leaves has that outcome again. *)
Theorem split_deterministic (p1 p2 : DataProcessor.t) (g1 g2 : RandomState)
    (test_size : size_spec) (seed : Z)
    (r1 r2 r3 : result (matrix cell * matrix cell * list cell * list cell))
    (p1' p2' p1'' : DataProcessor.t) (g1' g2' g1'' : RandomState) :
  DataProcessor.df p1 = DataProcessor.df p2 ->
  DataProcessor.prepare_train_test_split RandomState RandomState_seed
    permutation p1 g1 test_size (Some seed) = (r1, p1', g1') ->
  DataProcessor.prepare_train_test_split RandomState RandomState_seed
    permutation p2 g2 test_size (Some seed) = (r2, p2', g2') ->
  DataProcessor.prepare_train_test_split RandomState RandomState_seed
    permutation p1' g1' test_size (Some seed) = (r3, p1'', g1'') ->
  r1 = r2 /\ g1' = g1 /\ r3 = r1.
Proof.
  intros Hdf E1 E2 E3.
  destruct (split_seeded p1 p2 g1 g2 test_size seed Hdf) as [H12 Hg].
  rewrite E1, E2 in H12. rewrite E1 in Hg. simpl in H12, Hg.
  split; [exact H12|]. split; [exact Hg|].
  destruct (split_seeded p1' p1 g1' g1 test_size seed) as [H31 _].
  { exact (split_keeps_frame _ _ _ _ _ _ _ E1). }
  rewrite E3, E1 in H31. exact H31.
Qed.

End SplitProperties.

Lemma split_deterministic_witness :
  fst (fst (DataProcessor.prepare_train_test_split nat Demo.rng_seed
              Demo.rng_permutation (Demo.processor Demo.small_frame) 7%nat
              (Fraction (2 # 10)) (Some 42%Z)))
  = fst (fst (DataProcessor.prepare_train_test_split nat Demo.rng_seed
                Demo.rng_permutation (Demo.split_processor [[Some 5%Q]]) 99%nat
                (Fraction (2 # 10)) (Some 42%Z))).
Proof.
  set (run1 := DataProcessor.prepare_train_test_split nat Demo.rng_seed
                 Demo.rng_permutation (Demo.processor Demo.small_frame) 7%nat
                 (Fraction (2 # 10)) (Some 42%Z)).
  set (run2 := DataProcessor.prepare_train_test_split nat Demo.rng_seed
                 Demo.rng_permutation (Demo.split_processor [[Some 5%Q]]) 99%nat
                 (Fraction (2 # 10)) (Some 42%Z)).
  set (run3 := DataProcessor.prepare_train_test_split nat Demo.rng_seed
                 Demo.rng_permutation (snd (fst run1)) (snd run1)
                 (Fraction (2 # 10)) (Some 42%Z)).
  apply (split_deterministic nat Demo.rng_seed Demo.rng_permutation
           (Demo.processor Demo.small_frame) (Demo.split_processor [[Some 5%Q]])
           7%nat 99%nat (Fraction (2 # 10)) 42%Z
           (fst (fst run1)) (fst (fst run2)) (fst (fst run3))
           (snd (fst run1)) (snd (fst run2)) (snd (fst run3))
           (snd run1) (snd run2) (snd run3));
    reflexivity.
Defined.

(** ** Training *)

(** C8, amended.  [train] raises on an empty training set ([ValueError],
    from the validation of scikit-learn) and leaves an unfitted model in the
    trainer.  On every training set of at least one row and one column,
    finite and with one target per row, it returns a fitted model whose
    coefficients are what the least-squares solver answers: there is no
    check of the number of rows against the number of columns, so a set with
    more columns than rows is fitted like any other. *)
Theorem train_outcomes (lstsq : matrix Q -> list Q -> list Q)
    (self : ModelTrainer.t) (X : matrix cell) (y : list cell) :
  (X = [] ->
   ModelTrainer.train lstsq self X y
   = (Raise ValueError, ModelTrainer.set_model self (PyLinearRegression None)))
  /\ (fit_ready X y = true ->
      exists m,
        ModelTrainer.LinearRegression_fit lstsq X y = Return m
        /\ ModelTrainer.train lstsq self X y
           = (Return (PyLinearRegression (Some m)),
              ModelTrainer.set_model self (PyLinearRegression (Some m)))).
Proof.
  split.
  - intros ->. reflexivity.
  - unfold fit_ready. intros H.
    apply andb_prop in H as [H Hlen].
    apply andb_prop in H as [H Hy].
    apply andb_prop in H as [H Hfin].
    apply andb_prop in H as [H Hrect].
    apply andb_prop in H as [Hrows Hcols].
    apply negb_true_iff in Hrows, Hcols.
    unfold ModelTrainer.train, ModelTrainer.LinearRegression_fit, check_array.
    rewrite Hrows, Hcols, Hrect, Hfin. simpl. rewrite Hy, Hlen. simpl.
    eexists. split; reflexivity.
Qed.

Lemma train_outcomes_witness :
  exists m,
    ModelTrainer.train Demo.zero_solution ModelTrainer.init
      [[Some 1%Q; Some 2%Q]] [Some 3%Q]
    = (Return (PyLinearRegression (Some m)),
       ModelTrainer.set_model ModelTrainer.init (PyLinearRegression (Some m))).
Proof.
  destruct (proj2 (train_outcomes Demo.zero_solution ModelTrainer.init
                     [[Some 1%Q; Some 2%Q]] [Some 3%Q])) as (m & _ & E).
  - reflexivity.
  - by exists m.
Defined.

(** C8, as worded, on one row with two features: more features than rows,
    and [train] returns coefficients and an intercept. *)
Lemma train_underdetermined_returns :
  (length [[Some 1%Q; Some 2%Q]] < DataProcessor.n_features [[Some 1%Q; Some 2%Q]])%nat
  /\ fst (ModelTrainer.train Demo.zero_solution ModelTrainer.init
            [[Some 1%Q; Some 2%Q]] [Some 3%Q])
     = Return (PyLinearRegression
                 (Some {| coef_ := [0%Q; 0%Q]; intercept_ := 3%Q |})).
Proof. split; [vm_compute; lia | vm_compute; reflexivity]. Qed.

(** ** Saving *)

Lemma string_app_inj (a x y : string) : a ++ x = a ++ y -> x = y.
Proof.
  induction a as [|c a IH]; simpl; [done|]. intros [= H]. by apply IH.
Qed.

Lemma os_path_join_inj (dir a b : string) :
  os_path_join dir a = os_path_join dir b -> a = b.
Proof.
  unfold os_path_join.
  destruct (String.eqb dir ""); [done|].
  destruct (ends_with_slash dir); intros H; apply string_app_inj in H; [done|].
  by apply (string_app_inj "/") in H.
Qed.


(** [load_model] does not depend on the metrics file. *)
Lemma load_model_ignores_metrics (fs : FS) (dir : string) (f : file) :
  ModelPredictor.load_model (<[os_path_join dir metrics_file := f]> fs) dir
  = ModelPredictor.load_model fs dir.
Proof.
  unfold ModelPredictor.load_model, pickle_load, json_load.
  rewrite !lookup_insert_ne; [reflexivity|..];
    intros H; apply os_path_join_inj in H; discriminate H.
Qed.







(** * Further properties *)

(** ** Saving, then loading *)






(** X3.  [load_model] never looks at the metrics file: its outcome is the
    same when the file is removed.  A predictor can therefore be loaded and
    predict from a directory without metrics, and every call of
    [predict_with_confidence] whose prediction succeeds then raises
    [FileNotFoundError] for [metrics.json]. *)
Theorem metrics_file_not_needed (fs : FS) (dir : string)
    (p : ModelPredictor.t) (x : features) (price : Q) :
  ModelPredictor.load_model
    (delete (os_path_join dir metrics_file) fs) dir = Return p ->
  ModelPredictor.predict p x = Return price ->
  ModelPredictor.load_model fs dir = Return p
  /\ ModelPredictor.predict_with_confidence
       (delete (os_path_join dir metrics_file) fs) p x
     = Raise (FileNotFoundError (os_path_join dir metrics_file)).
Proof.
  intros Hload Hp. split.
  - rewrite <- Hload.
    unfold ModelPredictor.load_model, pickle_load, json_load.
    rewrite !lookup_delete_ne; [reflexivity|..];
      intros H; apply os_path_join_inj in H; discriminate H.
  - apply load_model_dir in Hload.
    unfold ModelPredictor.predict_with_confidence, json_load.
    rewrite Hp, Hload. simpl. by rewrite lookup_delete_eq.
Qed.

Lemma metrics_file_not_needed_witness :
  ModelPredictor.predict_with_confidence
    (delete (os_path_join "models" metrics_file)
            (Demo.bundle_files Demo.metrics))
    Demo.predictor (FeatureDict Demo.house)
  = Raise (FileNotFoundError (os_path_join "models" metrics_file)).
Proof.
  apply (metrics_file_not_needed (Demo.bundle_files Demo.metrics) "models"
           Demo.predictor (FeatureDict Demo.house) (40 # 2));
    vm_compute; reflexivity.
Defined.

(** X4.  When [load_model] reports a missing file, the file it names is one
    of the model, the scaler and the features, and it is absent; and with
    any of the three absent no predictor is returned. *)
Theorem load_model_missing_file (fs : FS) (dir : string) :
  (forall path,
      ModelPredictor.load_model fs dir = Raise (FileNotFoundError path) ->
      path ∈ [os_path_join dir model_file; os_path_join dir scaler_file;
               os_path_join dir features_file]
      /\ fs !! path = None)
  /\ (forall path,
        path ∈ [os_path_join dir model_file; os_path_join dir scaler_file;
                 os_path_join dir features_file] ->
        fs !! path = None ->
        forall p, ModelPredictor.load_model fs dir <> Return p).
Proof.
  unfold ModelPredictor.load_model, pickle_load, json_load. split.
  - intros path.
    destruct (fs !! os_path_join dir model_file) as [[|o|j]|] eqn:E1;
      try discriminate; simpl.
    2:{ intros [= <-]. split; [set_solver | exact E1]. }
    destruct (fs !! os_path_join dir scaler_file) as [[|o'|j]|] eqn:E2;
      try discriminate; simpl.
    2:{ intros [= <-]. split; [set_solver | exact E2]. }
    destruct (fs !! os_path_join dir features_file) as [[|o''|[m|names]]|] eqn:E3;
      try discriminate; simpl.
    intros [= <-]. split; [set_solver | exact E3].
  - intros path Hin Hnone p.
    rewrite !elem_of_cons in Hin.
    destruct Hin as [->|[->|[->|Hin]]]; [| | |by apply elem_of_nil in Hin].
    + rewrite Hnone. discriminate.
    + destruct (fs !! os_path_join dir model_file) as [[|o|j]|];
        try discriminate. simpl. rewrite Hnone. discriminate.
    + destruct (fs !! os_path_join dir model_file) as [[|o|j]|];
        try discriminate. simpl.
      destruct (fs !! os_path_join dir scaler_file) as [[|o'|j]|];
        try discriminate. simpl. rewrite Hnone. discriminate.
Qed.

Lemma load_model_missing_file_witness :
  os_path_join "models" scaler_file
    ∈ [os_path_join "models" model_file; os_path_join "models" scaler_file;
       os_path_join "models" features_file]
  /\ delete (os_path_join "models" scaler_file)
            (Demo.bundle_files Demo.metrics)
       !! os_path_join "models" scaler_file = None.
Proof.
  apply (proj1 (load_model_missing_file
                  (delete (os_path_join "models" scaler_file)
                          (Demo.bundle_files Demo.metrics)) "models")
           (os_path_join "models" scaler_file)).
  vm_compute. reflexivity.
Defined.

(** ** Inputs the predictor refuses *)

Lemma check_array_width (allow : bool) (n : nat) (X X' : matrix cell) :
  check_array allow n X = Return X' ->
  X' = X /\ X <> [] /\ Forall (fun row => length row = n) X
  /\ (allow = false -> Forall (fun row => forallb finite row = true) X).
Proof.
  unfold check_array.
  destruct (Nat.eqb (length X) 0) eqn:E0; [discriminate|].
  destruct (Nat.eqb n 0); [discriminate|].
  destruct (forallb _ X) eqn:E1; [|discriminate]. simpl.
  destruct (negb allow && negb (forallb (forallb finite) X)) eqn:E2;
    [discriminate|].
  intros [= <-]. split; [reflexivity|]. split; [by destruct X|]. split.
  - apply Forall_forall. intros row Hrow.
    rewrite forallb_forall in E1. apply Nat.eqb_eq, E1.
    by apply list_elem_of_In.
  - intros ->. simpl in E2. apply negb_false_iff in E2.
    apply Forall_forall. intros row Hrow.
    rewrite forallb_forall in E2. apply E2. by apply list_elem_of_In.
Qed.

Lemma predict_array_width (p : ModelPredictor.t) (s : ScalerParams)
    (row : list cell) :
  ModelPredictor.scaler p = PyStandardScaler (Some s) ->
  length row <> length (scaler_stats s) ->
  ModelPredictor.predict_array p [row] = Raise ValueError.
Proof.
  intros Hs Hlen. unfold ModelPredictor.predict_array. rewrite Hs. simpl.
  unfold StandardScaler_transform.
  destruct (check_array true _ [row]) as [e|X'] eqn:E.
  - apply check_array_raises in E as ->. reflexivity.
  - apply check_array_width in E as (_ & _ & Hw & _).
    apply Forall_cons in Hw as [Hw _]. by destruct Hlen.
Qed.

(** X5.  With a fitted scaler, [predict] raises [ValueError] on a list that
    has not as many values as the scaler has features, and on a record when
    the schema has not as many names: a width that does not fit is no
    silent misprediction. *)
Theorem predict_refuses_wrong_width (p : ModelPredictor.t) (s : ScalerParams) :
  ModelPredictor.scaler p = PyStandardScaler (Some s) ->
  (forall l, length l <> length (scaler_stats s) ->
             ModelPredictor.predict p (FeatureList l) = Raise ValueError)
  /\ (forall d,
        length (ModelPredictor.feature_names p) <> length (scaler_stats s) ->
        complete (ModelPredictor.feature_names p) d ->
        ModelPredictor.predict p (FeatureDict d) = Raise ValueError).
Proof.
  intros Hs. split.
  - intros l Hl. unfold ModelPredictor.predict. simpl.
    apply (predict_array_width p s); [exact Hs|]. by rewrite length_map.
  - intros d Hl Hd. rewrite predict_complete by exact Hd.
    apply (predict_array_width p s); [exact Hs|].
    by rewrite length_map, record_values_length.
Qed.

Lemma predict_refuses_wrong_width_witness :
  ModelPredictor.predict Demo.predictor (FeatureList [3%Q; 2%Q; 1%Q])
  = Raise ValueError.
Proof.
  destruct (predict_refuses_wrong_width Demo.predictor Demo.scaler eq_refl)
    as [H _].
  apply H. simpl. lia.
Defined.

Lemma comprehension_raises {A B : Type} (f : A -> result B) (l : list A)
    (x : A) (e : exn) :
  x ∈ l -> f x = Raise e -> exists e', comprehension f l = Raise e'.
Proof.
  induction l as [|y l IH]; intros Hx Hf; [by apply elem_of_nil in Hx|].
  simpl. destruct (f y) as [e'|b] eqn:Ey; [by exists e'|]. simpl.
  apply elem_of_cons in Hx as [->|Hx].
  - rewrite Hf in Ey. discriminate.
  - destruct (IH Hx Hf) as [e' ->]. by exists e'.
Qed.

Lemma scale_row_finite_inv (s : ScalerParams) (row : list cell) :
  length row = length (scaler_stats s) ->
  forallb finite (scale_row s row) = true ->
  forallb finite row = true.
Proof.
  unfold scale_row. generalize (scaler_stats s). clear s.
  induction row as [|c row IH]; intros [|ms stats] Hl; simpl in *;
    try discriminate; [done|].
  intros H. apply andb_prop in H as [H1 H2].
  rewrite (IH stats) by (lia || done).
  destruct c; [reflexivity|]. discriminate H1.
Qed.

(** A matrix with a non-finite cell is never served. *)
Lemma batch_with_nan_raises (p : ModelPredictor.t) (X : matrix cell)
    (row : list cell) :
  row ∈ X ->
  forallb finite row = false ->
  exists e,
    rbind (scaler_transform (ModelPredictor.scaler p) X)
          (model_predict (ModelPredictor.model p)) = Raise e.
Proof.
  intros Hrow Hnan.
  destruct (ModelPredictor.scaler p) as [|?|[s|]]; simpl; try by eexists.
  unfold StandardScaler_transform.
  destruct (check_array true _ X) as [e|X'] eqn:E1; [by eexists|].
  apply check_array_width in E1 as (-> & _ & Hw & _). simpl.
  destruct (ModelPredictor.model p) as [|[m|]|?]; simpl; try by eexists.
  unfold LinearRegression_predict.
  destruct (check_array false _ _) as [e|X''] eqn:E2; [by eexists|].
  exfalso.
  apply check_array_width in E2 as (_ & _ & _ & Hfin).
  specialize (Hfin eq_refl). rewrite Forall_forall in Hfin, Hw.
  assert (Hs : forallb finite (scale_row s row) = true).
  { apply Hfin. apply list_elem_of_In, in_map, list_elem_of_In, Hrow. }
  apply scale_row_finite_inv in Hs; [congruence|].
  by apply Hw.
Qed.

Lemma getloc_missing (cols names : list string) :
  (exists f, f ∈ names /\ (f ∉ cols)) ->
  exists f, f ∈ names /\ (f ∉ cols)
            /\ comprehension (get_loc cols) names = Raise (KeyError f).
Proof.
  induction names as [|f0 names IH]; intros (f & Hf & Hm).
  - by apply elem_of_nil in Hf.
  - simpl. unfold get_loc at 1.
    destruct (column_index cols f0) as [i|] eqn:E.
    + destruct IH as (f' & Hf' & Hm' & Hc).
      { apply elem_of_cons in Hf as [->|Hf]; [|by exists f].
        exfalso. apply Hm. by apply (column_index_elem _ _ i). }
      exists f'. split; [by right|]. split; [done|]. by rewrite Hc.
    + exists f0. split; [left|]. split; [|reflexivity].
      intros Hin. destruct (column_index_Some _ _ Hin) as (j & Hj & _).
      congruence.
Qed.

(** X6.  [predict_batch] is all or nothing on a list of records: when some
    record lacks a feature of the schema the call raises, whatever the other
    records are, and no price is returned for any of them. *)
Theorem predict_batch_fails_on_missing_feature (p : ModelPredictor.t)
    (rs : list (dict Q)) (r : dict Q) (f : string) :
  r ∈ rs ->
  f ∈ ModelPredictor.feature_names p ->
  f ∉ dict_keys r ->
  exists e, ModelPredictor.predict_batch p (Records rs) = Raise e.
Proof.
  intros Hr Hf Hm. unfold ModelPredictor.predict_batch. simpl.
  unfold frame_values. simpl.
  set (cols := foldl add_keys [] rs).
  destruct (comprehension (get_loc cols) (ModelPredictor.feature_names p))
    as [e|idx] eqn:Eidx; [by exists e|]. simpl.
  apply (batch_with_nan_raises p _ (take_cells idx (map (dict_get r) cols))).
  { apply list_elem_of_In, in_map.
    apply (in_map (fun r => map (dict_get r) cols)). by apply list_elem_of_In. }
  assert (Hcol : forall g, g ∈ ModelPredictor.feature_names p -> g ∈ cols).
  { intros g Hg. destruct (decide (g ∈ cols)) as [|Hn]; [done|].
    destruct (getloc_missing cols (ModelPredictor.feature_names p))
      as (g' & _ & _ & Hc); [by exists g|].
    rewrite Hc in Eidx. discriminate Eidx. }
  rewrite get_loc_all in Eidx by exact Hcol. injection Eidx as <-.
  apply not_true_is_false. intros Hfin.
  unfold take_cells in Hfin. rewrite forallb_forall in Hfin.
  assert (Hin : In (cell_at (loc cols f) (map (dict_get r) cols))
                   (map (fun i => cell_at i (map (dict_get r) cols))
                        (map (loc cols) (ModelPredictor.feature_names p)))).
  { apply (in_map (fun i => cell_at i (map (dict_get r) cols))).
    apply in_map. by apply list_elem_of_In. }
  apply Hfin in Hin.
  destruct (column_index_Some cols f (Hcol f Hf)) as (j & Hj & Hc).
  unfold loc, cell_at in Hin. rewrite Hj in Hin. simpl in Hin.
  rewrite list_lookup_fmap, Hc in Hin. simpl in Hin.
  apply dict_get_None in Hm. rewrite Hm in Hin.
  discriminate Hin.
Qed.

Lemma predict_batch_fails_on_missing_feature_witness :
  exists e,
    ModelPredictor.predict_batch Demo.predictor
      (Records [Demo.house; Demo.house_without_a; Demo.other_house]) = Raise e.
Proof.
  apply (predict_batch_fails_on_missing_feature Demo.predictor
           [Demo.house; Demo.house_without_a; Demo.other_house]
           Demo.house_without_a "a").
  - apply list_elem_of_In. simpl. auto.
  - apply (bool_decide_unpack _). vm_compute. exact I.
  - apply (bool_decide_unpack _). vm_compute. exact I.
Defined.



(** ** The routes of [app.py] *)

Lemma column_comprehension (data : list (dict Q)) (key : string) :
  (forall house, house ∈ data -> key ∈ dict_keys house) ->
  comprehension (fun house => dict_getitem house key) data
  = Return (snd (column_of data key)).
Proof.
  intros H. apply comprehension_return. intros house Hh. unfold dict_getitem.
  destruct (dict_get_is_Some house key (H house Hh)) as [v ->]. reflexivity.
Qed.

Lemma data_dict_columns (first : dict Q) (rest : list (dict Q)) :
  (forall house key, house ∈ first :: rest -> key ∈ dict_keys first ->
                     key ∈ dict_keys house) ->
  App.data_dict (first :: rest)
  = Return (map (column_of (first :: rest)) (dict_keys first)).
Proof.
  intros H. unfold App.data_dict. apply comprehension_return.
  intros key Hkey. rewrite column_comprehension; [reflexivity|].
  intros house Hh. by apply H.
Qed.

Lemma columns_same_lengths (data : list (dict Q)) (keys : list string) :
  same_lengths (map (column_of data) keys) = true.
Proof.
  destruct keys as [|k keys]; [reflexivity|]. simpl.
  apply forallb_forall. intros kc Hkc. apply in_map_iff in Hkc as (k' & <- & _).
  simpl. rewrite !length_map. apply Nat.eqb_refl.
Qed.

Lemma columns_records (data : list (dict Q)) (keys : list string) :
  keys <> [] ->
  columns_to_records (map (column_of data) keys) = map (restrict keys) data.
Proof.
  intros Hne. unfold columns_to_records.
  assert (Hn : n_rows (map (column_of data) keys) = length data).
  { destruct keys as [|k keys]; [done|]. simpl. by rewrite length_map. }
  rewrite Hn. apply list_eq. intros i.
  rewrite !list_lookup_fmap.
  destruct (data !! i) as [house|] eqn:E.
  - rewrite (lookup_seq_lt 0 (length data) i) by (by eapply lookup_lt_Some).
    simpl. f_equal. unfold record_at, restrict. rewrite map_map.
    apply map_ext. intros key. simpl.
    by rewrite list_lookup_fmap, E.
  - rewrite lookup_seq_ge by (by apply lookup_ge_None). reflexivity.
Qed.

Lemma restrict_get (keys : list string) (house : dict Q) (key : string) :
  key ∈ keys -> key ∈ dict_keys house ->
  dict_get (restrict keys house) key = dict_get house key.
Proof.
  intros Hk Hh. destruct (dict_get_is_Some house key Hh) as [v Hv].
  rewrite Hv. unfold restrict.
  induction keys as [|k keys IH]; [by apply elem_of_nil in Hk|]. simpl.
  destruct (String.eqb_spec key k) as [<-|Hne]; [by rewrite Hv|].
  apply IH. apply elem_of_cons in Hk as [?|?]; done.
Qed.

Lemma predict_agree (p : ModelPredictor.t) (d d' : dict Q) :
  (forall f, f ∈ ModelPredictor.feature_names p -> dict_get d' f = dict_get d f) ->
  ModelPredictor.predict p (FeatureDict d')
  = ModelPredictor.predict p (FeatureDict d).
Proof.
  intros H. unfold ModelPredictor.predict.
  rewrite (comprehension_ext (dict_getitem d') (dict_getitem d)); [reflexivity|].
  intros f Hf. unfold dict_getitem. by rewrite H.
Qed.

Lemma route_columns (p : ModelPredictor.t) (first : dict Q)
    (rest : list (dict Q)) :
  ModelPredictor.feature_names p <> [] ->
  Forall (complete (dict_keys first)) (first :: rest) ->
  Forall (complete (ModelPredictor.feature_names p)) (first :: rest) ->
  App.data_dict (first :: rest)
  = Return (map (column_of (first :: rest)) (dict_keys first))
  /\ ModelPredictor.predict_batch p
       (Columns (map (column_of (first :: rest)) (dict_keys first)))
     = comprehension (fun r => ModelPredictor.predict p (FeatureDict r))
                     (first :: rest).
Proof.
  intros Hnames Hkeys Hall.
  set (data := first :: rest) in *.
  rewrite Forall_forall in Hkeys.
  split; [apply data_dict_columns; intros house key Hh Hk; by apply Hkeys|].
  assert (Hfirst : complete (ModelPredictor.feature_names p) first).
  { by apply Forall_cons in Hall as [? _]. }
  assert (Hk : dict_keys first <> []).
  { destruct (ModelPredictor.feature_names p) as [|f names] eqn:E; [done|].
    intros Hnil. specialize (Hfirst f). rewrite Hnil in Hfirst.
    eapply elem_of_nil, Hfirst. left. }
  assert (Hagree : forall house f,
             house ∈ data -> f ∈ ModelPredictor.feature_names p ->
             dict_get (restrict (dict_keys first) house) f = dict_get house f).
  { intros house f Hh Hf. apply restrict_get; [by apply Hfirst|].
    rewrite Forall_forall in Hall. by apply Hall. }
  rewrite (predict_batch_rowwise p _ (map (restrict (dict_keys first)) data)).
  - rewrite comprehension_map. apply comprehension_ext.
    intros house Hh. apply predict_agree. intros f Hf. by apply Hagree.
  - simpl. rewrite columns_same_lengths. f_equal. by apply columns_records.
  - subst data. discriminate.
  - apply Forall_map. apply Forall_forall. intros house Hh f Hf. simpl.
    destruct (decide (f ∈ dict_keys (restrict (dict_keys first) house)))
      as [|Hn]; [done|].
    apply dict_get_None in Hn. rewrite Hagree in Hn by done.
    apply dict_get_None in Hn. rewrite Forall_forall in Hall.
    by destruct (Hn (Hall house Hh f Hf)).
Qed.

(** X8.  The route [/predict_batch] turns the list of records into columns
    keyed by the keys of the first record.  When every record has these
    keys and every feature of a non-empty schema, the columns are built and
    the batch prediction on them is the prediction of the records one after
    another, in the order of the request. *)
Theorem route_batch_rowwise (p : ModelPredictor.t) (first : dict Q)
    (rest : list (dict Q)) :
  ModelPredictor.feature_names p <> [] ->
  Forall (complete (dict_keys first)) (first :: rest) ->
  Forall (complete (ModelPredictor.feature_names p)) (first :: rest) ->
  exists d,
    App.data_dict (first :: rest) = Return d
    /\ ModelPredictor.predict_batch p (Columns d)
       = comprehension (fun r => ModelPredictor.predict p (FeatureDict r))
                       (first :: rest).
Proof.
  intros Hnames Hkeys Hall.
  destruct (route_columns p first rest Hnames Hkeys Hall) as [E1 E2].
  eexists. split; [exact E1 | exact E2].
Qed.

Lemma Forall_completeb (names : list string) (data : list (dict Q)) :
  forallb (completeb names) data = true -> Forall (complete names) data.
Proof.
  rewrite forallb_forall. intros H. apply Forall_forall. intros house Hh.
  apply completeb_complete, H. by apply list_elem_of_In.
Qed.

Lemma route_batch_rowwise_witness :
  exists d,
    App.data_dict [Demo.house_extra; Demo.house_extra] = Return d
    /\ ModelPredictor.predict_batch Demo.predictor (Columns d)
       = Return [40 # 2; 40 # 2].
Proof.
  destruct (route_batch_rowwise Demo.predictor Demo.house_extra
              [Demo.house_extra]) as (d & E1 & E2).
  - discriminate.
  - apply Forall_completeb. reflexivity.
  - apply Forall_completeb. reflexivity.
  - exists d. split; [exact E1|]. rewrite E2. reflexivity.
Defined.

Lemma column_comprehension_missing (data : list (dict Q)) (key : string)
    (house : dict Q) :
  house ∈ data -> key ∉ dict_keys house ->
  comprehension (fun house => dict_getitem house key) data
  = Raise (KeyError key).
Proof.
  induction data as [|h data IH]; intros Hh Hk; [by apply elem_of_nil in Hh|].
  simpl. unfold dict_getitem at 1.
  destruct (dict_get h key) as [v|] eqn:E; [|reflexivity]. simpl.
  rewrite IH; [reflexivity | | done].
  apply elem_of_cons in Hh as [->|Hh]; [|done].
  apply dict_get_None in Hk. congruence.
Qed.

Lemma data_dict_missing (first : dict Q) (rest : list (dict Q)) :
  (exists house key, house ∈ first :: rest /\ key ∈ dict_keys first
                     /\ (key ∉ dict_keys house)) ->
  exists house key, house ∈ first :: rest /\ key ∈ dict_keys first
                    /\ (key ∉ dict_keys house)
                    /\ App.data_dict (first :: rest) = Raise (KeyError key).
Proof.
  unfold App.data_dict. generalize (first :: rest) as data.
  generalize (dict_keys first) as keys. clear.
  induction keys as [|k keys IH]; intros data (house & key & Hh & Hk & Hm).
  - by apply elem_of_nil in Hk.
  - simpl.
    destruct (decide (Forall (fun h => k ∈ dict_keys h) data)) as [Hall|Hnot].
    + rewrite column_comprehension
        by (rewrite Forall_forall in Hall; exact Hall).
      simpl. destruct (IH data) as (house' & key' & Hh' & Hk' & Hm' & Hc).
      { exists house, key. split; [done|]. split; [|done].
        apply elem_of_cons in Hk as [->|Hk]; [|done].
        rewrite Forall_forall in Hall. by destruct (Hm (Hall house Hh)). }
      exists house', key'. split; [done|]. split; [by right|].
      split; [done|]. by rewrite Hc.
    + apply not_Forall_Exists in Hnot; [|intros ?; apply _].
      apply Exists_exists in Hnot as (house' & Hh' & Hm').
      exists house', k. split; [done|]. split; [left|]. split; [done|].
      by rewrite (column_comprehension_missing data k house').
Qed.

(** X9.  When some record of the request lacks a key of the first record,
    a feature or not, the route [/predict_batch] answers 500 with the key
    error of such a key, and no record is predicted; on the empty list it
    answers 500 with an index error. *)
Theorem route_batch_key_mismatch (p : ModelPredictor.t) (fs : FS)
    (first : dict Q) (rest : list (dict Q)) :
  (exists house key, house ∈ first :: rest /\ key ∈ dict_keys first
                     /\ (key ∉ dict_keys house)) ->
  (exists house key, house ∈ first :: rest /\ key ∈ dict_keys first
                     /\ (key ∉ dict_keys house)
                     /\ App.predict_batch (Some p) fs (first :: rest)
                        = App.Status500 (App.Caught (KeyError key)))
  /\ App.predict_batch (Some p) fs [] = App.Status500 (App.Caught IndexError).
Proof.
  intros H. split; [|reflexivity].
  destruct (data_dict_missing first rest H) as (house & key & Hh & Hk & Hm & E).
  exists house, key. split; [done|]. split; [done|]. split; [done|].
  unfold App.predict_batch. by rewrite E.
Qed.

Lemma route_batch_key_mismatch_witness :
  exists key,
    App.predict_batch (Some Demo.predictor) (Demo.bundle_files Demo.metrics)
      [Demo.house_extra; Demo.house]
    = App.Status500 (App.Caught (KeyError key)).
Proof.
  destruct (route_batch_key_mismatch Demo.predictor
              (Demo.bundle_files Demo.metrics) Demo.house_extra [Demo.house])
    as [(house & key & _ & _ & _ & E) _].
  - exists Demo.house, "z". split; [apply list_elem_of_In; simpl; auto|].
    split; apply (bool_decide_unpack _); vm_compute; exact I.
  - by exists key.
Defined.




Lemma missing_fields_spec (data : dict Q) (g : string) :
  g ∈ App.missing_fields data
  <-> g ∈ App.required_fields /\ (g ∉ dict_keys data).
Proof.
  unfold App.missing_fields. rewrite list_elem_of_In, filter_In.
  rewrite <- list_elem_of_In.
  split; intros [Hr Hm]; (split; [exact Hr|]).
  - apply negb_true_iff, bool_decide_eq_false in Hm.
    intros Hk. apply Hm. destruct (dict_get_is_Some data g Hk) as [v ->].
    by eexists.
  - apply negb_true_iff, bool_decide_eq_false.
    apply dict_get_None in Hm. rewrite Hm. by intros [v Hv].
Qed.

(** X11.  The route [/predict] checks the request against its own list of
    required fields before it asks the predictor.  A 400 for missing fields
    lists the required fields the request lacks and only those; and when the
    schema of the predictor is among the required fields, the route never
    answers 500 with the key error of a feature. *)
Theorem route_predict_validates (p : ModelPredictor.t) (fs : FS)
    (data : dict Q) :
  (forall fields,
      App.predict (Some p) fs (Some data)
      = App.Status400 (App.MissingFields fields) ->
      forall g, g ∈ fields
                <-> g ∈ App.required_fields /\ (g ∉ dict_keys data))
  /\ ((forall f, f ∈ ModelPredictor.feature_names p ->
                  f ∈ App.required_fields) ->
      forall f, f ∈ ModelPredictor.feature_names p ->
                App.predict (Some p) fs (Some data)
                <> App.Status500 (App.Caught (KeyError f))).
Proof.
  unfold App.predict. split.
  - intros fields. destruct data as [|kv data]; [discriminate|].
    destruct (App.missing_fields (kv :: data)) as [|g0 l] eqn:E.
    + destruct (rbind _ _); discriminate.
    + intros [= Hfields] g. subst fields. rewrite <- E.
      apply missing_fields_spec.
  - intros Hsub f Hf. destruct data as [|kv data]; [discriminate|].
    destruct (App.missing_fields (kv :: data)) as [|g0 l] eqn:E; [|discriminate].
    assert (Hd : complete (ModelPredictor.feature_names p) (kv :: data)).
    { intros g Hg. destruct (decide (g ∈ dict_keys (kv :: data))) as [|Hn];
        [done|].
      assert (Hin : g ∈ App.missing_fields (kv :: data)).
      { apply missing_fields_spec. split; [by apply Hsub | done]. }
      rewrite E in Hin. by apply elem_of_nil in Hin. }
    rewrite predict_complete by exact Hd.
    unfold ModelPredictor.predict_with_confidence.
    rewrite predict_complete by exact Hd.
    destruct (ModelPredictor.predict_array p _) as [e|price] eqn:Ep; simpl.
    { intros [= ->]. by apply predict_array_not_KeyError in Ep. }
    unfold json_load.
    destruct (fs !! _) as [[|o|[[m|]|names]]|]; simpl; try discriminate.
    intros [= <-].
    apply Hsub in Hf. unfold App.required_fields in Hf.
    rewrite !elem_of_cons in Hf.
    destruct Hf as [Hf|[Hf|[Hf|[Hf|[Hf|Hf]]]]]; try discriminate Hf.
    by apply elem_of_nil in Hf.
Qed.

Lemma route_predict_validates_witness :
  App.predict (Some Housing.predictor) ∅ (Some Housing.example_house)
  <> App.Status500 (App.Caught (KeyError "square_feet")).
Proof.
  apply (proj2 (route_predict_validates Housing.predictor ∅
                  Housing.example_house)).
  - intros f Hf. exact Hf.
  - apply (bool_decide_unpack _). vm_compute. exact I.
Defined.

(** ** More on outlier removal *)

Lemma filter_sublist {A : Type} (f : A -> bool) (l : list A) :
  List.filter f l `sublist_of` l.
Proof.
  induction l as [|x l IH]; simpl; [constructor|].
  destruct (f x); [by apply sublist_skip | by apply sublist_cons].
Qed.

Lemma outlier_step_sublist (sqrt : Q -> Q) (threshold : Q) (d d' : DataFrame)
    (col : string) :
  DataProcessor.outlier_step sqrt threshold d col = Return d' ->
  columns d' = columns d /\ rows d' `sublist_of` rows d.
Proof.
  unfold DataProcessor.outlier_step.
  destruct (get_loc (columns d) col) as [e|i]; [discriminate|]. simpl.
  intros [= <-]. split; [reflexivity|]. apply filter_sublist.
Qed.

Lemma outlier_loop_sublist (sqrt : Q -> Q) (threshold : Q)
    (cols : list string) (d : DataFrame) :
  columns (snd (DataProcessor.outlier_loop sqrt threshold cols d)) = columns d
  /\ rows (snd (DataProcessor.outlier_loop sqrt threshold cols d))
     `sublist_of` rows d.
Proof.
  revert d. induction cols as [|c cols IH]; intros d; simpl; [done|].
  destruct (DataProcessor.outlier_step sqrt threshold d c) as [e|d'] eqn:E;
    [done|].
  apply outlier_step_sublist in E as [Ec Er].
  destruct (IH d') as [Hc Hr]. split; [congruence|].
  by etrans.
Qed.

(** X12.  [remove_outliers] only drops rows: whatever the columns and the
    threshold, and also when it raises half-way, the frame it leaves in the
    processor has the columns of the frame it found and a sub-sequence of
    its rows, in their order and unaltered; the frame it returns is the one
    it leaves. *)
Theorem remove_outliers_only_drops (sqrt : Q -> Q) (self : DataProcessor.t)
    (d : DataFrame) (cols : option (list string)) (threshold : Q) :
  DataProcessor.df self = Some d ->
  exists d',
    DataProcessor.df (snd (DataProcessor.remove_outliers sqrt self cols threshold))
    = Some d'
    /\ columns d' = columns d
    /\ rows d' `sublist_of` rows d
    /\ forall d'',
        fst (DataProcessor.remove_outliers sqrt self cols threshold) = Return d''
        -> d'' = d'.
Proof.
  intros Hdf. unfold DataProcessor.remove_outliers. rewrite Hdf.
  pose proof (outlier_loop_sublist sqrt threshold (default (columns d) cols) d)
    as [Hc Hr].
  destruct (DataProcessor.outlier_loop _ _ _ d) as [r d'] eqn:E. simpl in *.
  exists d'. split; [reflexivity|]. split; [exact Hc|]. split; [exact Hr|].
  intros d''. destruct r as [e|[]]; simpl; [discriminate | by intros [= <-]].
Qed.

Lemma remove_outliers_only_drops_witness :
  exists d',
    DataProcessor.df
      (snd (DataProcessor.remove_outliers sqrt_approx
              (Demo.processor Demo.frame) (Some ["a"; "zip"; price]) 3))
    = Some d'
    /\ rows d' `sublist_of` rows Demo.frame.
Proof.
  destruct (remove_outliers_only_drops sqrt_approx (Demo.processor Demo.frame)
              Demo.frame (Some ["a"; "zip"; price]) 3 eq_refl)
    as (d' & E & _ & H & _).
  by exists d'.
Defined.

Lemma reference_run_columns (sqrt : Q -> Q) (keep : cell -> bool)
    (cols : list string) (d : DataFrame) :
  columns (reference_run sqrt keep cols d) = columns d.
Proof.
  unfold reference_run. revert d.
  induction cols as [|c cols IH]; intros d; simpl; [reflexivity|].
  by rewrite IH, reference_step_columns.
Qed.

Lemma outlier_loop_app (sqrt : Q -> Q) (threshold : Q)
    (pre post : list string) (d : DataFrame) :
  (forall c, c ∈ pre -> c ∈ columns d) ->
  DataProcessor.outlier_loop sqrt threshold (pre ++ post)%list d
  = DataProcessor.outlier_loop sqrt threshold post
      (reference_run sqrt (DataProcessor.below threshold) pre d).
Proof.
  revert d. induction pre as [|c pre IH]; intros d Hin; [reflexivity|].
  simpl. rewrite outlier_step_reference by (apply Hin; left).
  unfold Return. cbv iota beta.
  rewrite IH; [reflexivity|].
  intros c' Hc'. rewrite reference_step_columns. apply Hin. by right.
Qed.

(** X13.  On a column that the frame does not have, [remove_outliers]
    raises the key error of that column and leaves the processor with the
    frame filtered on the columns before it: the rows those columns dropped
    stay dropped, the columns after it are not looked at. *)
Theorem remove_outliers_unknown_column (sqrt : Q -> Q)
    (self : DataProcessor.t) (d : DataFrame) (pre post : list string)
    (c : string) (threshold : Q) :
  DataProcessor.df self = Some d ->
  (forall c', c' ∈ pre -> c' ∈ columns d) ->
  c ∉ columns d ->
  DataProcessor.remove_outliers sqrt self (Some (pre ++ c :: post)%list) threshold
  = (Raise (KeyError c),
     DataProcessor.set_df self
       (reference_run sqrt (DataProcessor.below threshold) pre d)).
Proof.
  intros Hdf Hpre Hc. unfold DataProcessor.remove_outliers. rewrite Hdf.
  change (default (columns d) (Some (pre ++ c :: post)%list))
    with (pre ++ c :: post)%list.
  rewrite outlier_loop_app by exact Hpre. simpl.
  unfold DataProcessor.outlier_step, get_loc.
  rewrite reference_run_columns.
  destruct (column_index (columns d) c) as [i|] eqn:E; [|reflexivity].
  by apply column_index_elem in E.
Qed.

Lemma remove_outliers_unknown_column_witness :
  DataProcessor.remove_outliers sqrt_approx (Demo.processor Demo.frame)
    (Some ([price] ++ "zip" :: ["a"])%list) 3
  = (Raise (KeyError "zip"),
     DataProcessor.set_df (Demo.processor Demo.frame)
       (reference_run sqrt_approx (DataProcessor.below 3) [price] Demo.frame)).
Proof.
  apply (remove_outliers_unknown_column sqrt_approx (Demo.processor Demo.frame)
           Demo.frame [price] ["a"] "zip" 3 eq_refl).
  - intros c' Hc'. apply list_elem_of_singleton in Hc' as ->.
    apply (bool_decide_unpack _). vm_compute. exact I.
  - apply (bool_decide_unpack _). vm_compute. exact I.
Defined.

Lemma filter_none {A : Type} (f : A -> bool) (l : list A) :
  (forall x, x ∈ l -> f x = false) -> List.filter f l = [].
Proof.
  induction l as [|x l IH]; intros H; simpl; [reflexivity|].
  rewrite (H x) by left. apply IH. intros y Hy. apply H. by right.
Qed.

Lemma Qltb_lt (x y : Q) : Qltb x y = true <-> (x < y)%Q.
Proof.
  unfold Qltb. rewrite negb_true_iff. split.
  - intros H. apply Qnot_le_lt. intros Hle.
    apply Qle_bool_iff in Hle. congruence.
  - intros H. destruct (Qle_bool y x) eqn:E; [|reflexivity].
    apply Qle_bool_iff in E. by apply Qlt_not_le in H.
Qed.

Lemma below_nonpositive (threshold : Q) (mean std c : cell) :
  (threshold <= 0)%Q ->
  DataProcessor.below threshold (DataProcessor.z_score mean std c) = false.
Proof.
  intros Ht. unfold DataProcessor.z_score, DataProcessor.below.
  destruct c as [x|], mean as [m|], std as [sd|]; try reflexivity.
  destruct (Qzero sd); [reflexivity|].
  apply not_true_is_false. rewrite Qltb_lt. apply Qle_not_lt.
  eapply Qle_trans; [exact Ht | apply Qabs_nonneg].
Qed.

Lemma present_length (col : list cell) : (length (present col) <= length col)%nat.
Proof.
  unfold present. induction col as [|[x|] col IH]; cbn in *; lia.
Qed.

Lemma below_single_row (sqrt : Q -> Q) (threshold : Q) (col : list cell)
    (c : cell) :
  (length col <= 1)%nat ->
  DataProcessor.below threshold
    (DataProcessor.z_score (series_mean col)
       (DataProcessor.series_std sqrt col) c) = false.
Proof.
  intros Hl. unfold DataProcessor.series_std.
  pose proof (present_length col).
  destruct (Nat.ltb_spec (length (present col)) 2) as [_|?]; [|lia].
  unfold DataProcessor.z_score.
  by destruct c, (series_mean col).
Qed.

Lemma reference_step_emptied (sqrt : Q -> Q) (keep : cell -> bool)
    (d : DataFrame) (col : string) :
  reference_step sqrt keep (emptied d) col = emptied d.
Proof.
  unfold reference_step. simpl.
  by destruct (column_index (columns d) col).
Qed.

Lemma reference_run_emptied (sqrt : Q -> Q) (keep : cell -> bool)
    (cols : list string) (d : DataFrame) :
  reference_run sqrt keep cols (emptied d) = emptied d.
Proof.
  unfold reference_run. induction cols as [|c cols IH]; simpl; [reflexivity|].
  by rewrite reference_step_emptied.
Qed.

(** X14.  With a threshold that is not positive, or on a frame of at most
    one row, [remove_outliers] over at least one column of the frame drops
    every row: no z-score magnitude is below such a threshold, and one row
    has no standard deviation. *)
Theorem remove_outliers_drops_all (sqrt : Q -> Q) (self : DataProcessor.t)
    (d : DataFrame) (cols : option (list string)) (threshold : Q) :
  DataProcessor.df self = Some d ->
  default (columns d) cols <> [] ->
  (forall c, c ∈ default (columns d) cols -> c ∈ columns d) ->
  (threshold <= 0)%Q \/ (length (rows d) <= 1)%nat ->
  DataProcessor.remove_outliers sqrt self cols threshold
  = (Return (emptied d), DataProcessor.set_df self (emptied d)).
Proof.
  intros Hdf Hne Hin Hcase. unfold DataProcessor.remove_outliers. rewrite Hdf.
  rewrite outlier_loop_reference by exact Hin.
  assert (E : reference_run sqrt (DataProcessor.below threshold)
                (default (columns d) cols) d = emptied d).
  { destruct (default (columns d) cols) as [|c cs]; [done|].
    unfold reference_run. simpl.
    assert (E1 : reference_step sqrt (DataProcessor.below threshold) d c
                 = emptied d).
    { unfold reference_step.
      destruct (column_index_Some _ c (Hin c ltac:(left))) as (i & -> & _).
      unfold boolean_index, emptied. f_equal. apply filter_none.
      intros row _. unfold row_z_score.
      destruct Hcase as [Ht|Hl]; [by apply below_nonpositive|].
      apply below_single_row. by rewrite length_map. }
    rewrite E1. apply reference_run_emptied. }
  by rewrite E.
Qed.

Lemma remove_outliers_drops_all_witness :
  DataProcessor.remove_outliers sqrt_approx (Demo.processor Demo.frame) None 0
  = (Return (emptied Demo.frame),
     DataProcessor.set_df (Demo.processor Demo.frame) (emptied Demo.frame)).
Proof.
  apply (remove_outliers_drops_all sqrt_approx (Demo.processor Demo.frame)
           Demo.frame None 0 eq_refl).
  - discriminate.
  - intros c Hc. exact Hc.
  - left. apply Qle_refl.
Defined.

(** ** Feature names *)

Lemma feature_columns_in (d : DataFrame) (c : string) :
  c ∈ feature_columns d <-> c ∈ columns d /\ c <> price.
Proof.
  unfold feature_columns. rewrite list_elem_of_In, filter_In, <- list_elem_of_In.
  rewrite negb_true_iff. split; intros [H1 H2]; (split; [exact H1|]).
  - intros ->. by rewrite String.eqb_refl in H2.
  - by apply String.eqb_neq.
Qed.

Lemma drop_price_columns (d : DataFrame) :
  price ∈ columns d ->
  DataProcessor.drop_price d
  = Return {| columns := feature_columns d;
              rows := map (take_cells (map (loc (columns d)) (feature_columns d)))
                          (rows d) |}.
Proof.
  intros Hp. unfold DataProcessor.drop_price, get_loc.
  destruct (column_index_Some _ _ Hp) as (i & -> & _). simpl.
  unfold frame_values. fold (feature_columns d).
  rewrite get_loc_all; [reflexivity|].
  intros c Hc. by apply feature_columns_in in Hc as [? _].
Qed.



(** ** More on the split *)

Local Open Scope list_scope.

Lemma validate_raises (n : nat) (test_size : size_spec) (e : exn) :
  validate_shuffle_split n test_size = inl e -> e = ValueError.
Proof.
  unfold validate_shuffle_split.
  destruct test_size as [q|k].
  - destruct (Qltb 0 q && Qltb q 1); simpl; [|by intros [= <-]].
    destruct (Nat.eqb _ 0); [by intros [= <-] | discriminate].
  - destruct (Z.ltb 0 k && Z.ltb k (Z.of_nat n)); simpl; [|by intros [= <-]].
    destruct (Nat.eqb _ 0); [by intros [= <-] | discriminate].
Qed.

Lemma ceiling_positive (x : Q) : (0 < x)%Q -> (0 < Qceiling x)%Z.
Proof.
  intros Hx. apply Qlt_le_trans with (z := inject_Z (Qceiling x)) in Hx;
    [|apply Qle_ceiling].
  by rewrite (Zlt_Qlt 0).
Qed.

Lemma validate_sizes (n : nat) (test_size : size_spec) (n_train n_test : nat) :
  validate_shuffle_split n test_size = Return (n_train, n_test) ->
  (1 <= n_train /\ 1 <= n_test /\ n_train + n_test = n)%nat.
Proof.
  unfold validate_shuffle_split.
  destruct test_size as [q|k].
  - destruct (Qltb 0 q && Qltb q 1) eqn:Eq; simpl; [|discriminate].
    apply andb_prop in Eq as [Hq _]. apply Qltb_lt in Hq.
    set (nt := Z.to_nat (Qceiling (q * inject_Z (Z.of_nat n)))).
    destruct (Nat.eqb_spec (n - nt) 0) as [|Hne]; [discriminate|].
    intros [= <- <-].
    assert (0 < Qceiling (q * inject_Z (Z.of_nat n)))%Z.
    { apply ceiling_positive. apply Qmult_lt_0_compat; [exact Hq|].
      rewrite <- (Zlt_Qlt 0). lia. }
    subst nt. lia.
  - destruct (Z.ltb 0 k && Z.ltb k (Z.of_nat n)) eqn:Ek; simpl; [|discriminate].
    apply andb_prop in Ek as [H0 Hk].
    apply Z.ltb_lt in H0, Hk.
    destruct (Nat.eqb_spec (n - Z.to_nat k) 0) as [|Hne]; [discriminate|].
    intros [= <- <-]. lia.
Qed.

Lemma validate_small (n : nat) (test_size : size_spec) :
  (n < 2)%nat -> validate_shuffle_split n test_size = Raise ValueError.
Proof.
  intros Hn.
  destruct (validate_shuffle_split n test_size) as [e|[n_train n_test]] eqn:E.
  - by apply validate_raises in E as ->.
  - apply validate_sizes in E. lia.
Qed.

Lemma validate_fraction (n : nat) (q : Q) :
  ~ (0 < q /\ q < 1)%Q ->
  validate_shuffle_split n (Fraction q) = Raise ValueError.
Proof.
  intros Hq. unfold validate_shuffle_split.
  destruct (Qltb 0 q && Qltb q 1) eqn:E; [|reflexivity].
  apply andb_prop in E as [H0 H1]. apply Qltb_lt in H0, H1. by destruct Hq.
Qed.

Lemma take_rows_all_aux {A : Type} (pre l : list A) :
  take_rows (pre ++ l) (seq (length pre) (length l)) = l.
Proof.
  unfold take_rows. revert pre.
  induction l as [|x l IH]; intros pre; [reflexivity|].
  simpl. rewrite list_lookup_middle by done.
  f_equal. specialize (IH (pre ++ [x])).
  rewrite <- app_assoc, length_app in IH. simpl in IH.
  by rewrite Nat.add_1_r in IH.
Qed.

Lemma take_rows_all {A : Type} (l : list A) :
  take_rows l (seq 0 (length l)) = l.
Proof. exact (take_rows_all_aux [] l). Qed.

Lemma take_rows_zip {A B : Type} (X : list A) (y : list B) (idx : list nat) :
  length X = length y ->
  take_rows (zip X y) idx = zip (take_rows X idx) (take_rows y idx).
Proof.
  intros Hl. unfold take_rows.
  induction idx as [|i idx IH]; [reflexivity|].
  simpl. rewrite lookup_zip_with.
  destruct (X !! i) as [a|] eqn:Ea, (y !! i) as [b|] eqn:Eb; simpl.
  - f_equal. exact IH.
  - apply lookup_lt_Some in Ea. apply lookup_ge_None in Eb. lia.
  - apply lookup_ge_None in Ea. apply lookup_lt_Some in Eb. lia.
  - exact IH.
Qed.

Lemma take_rows_length {A : Type} (l : list A) (idx : list nat) :
  Forall (fun i => (i < length l)%nat) idx ->
  length (take_rows l idx) = length idx.
Proof.
  unfold take_rows. induction 1 as [|i idx Hi _ IH]; [reflexivity|].
  simpl. destruct (lookup_lt_is_Some_2 l i Hi) as [x ->].
  simpl. f_equal. exact IH.
Qed.

Lemma take_rows_perm {A : Type} (l : list A) (idx idx' : list nat) :
  idx ≡ₚ idx' -> take_rows l idx ≡ₚ take_rows l idx'.
Proof. intros H. unfold take_rows. by rewrite H. Qed.

Lemma take_rows_app {A : Type} (l : list A) (idx idx' : list nat) :
  take_rows l (idx ++ idx') = take_rows l idx ++ take_rows l idx'.
Proof. unfold take_rows. apply omap_app. Qed.

(** The two index lists of a split cover the positions of the rows. *)
Lemma split_indices (idx : list nat) (n n_train n_test : nat) :
  idx ≡ₚ seq 0 n ->
  (n_train + n_test = n)%nat ->
  take n_train (drop n_test idx) ++ take n_test idx ≡ₚ seq 0 n
  /\ length (take n_train (drop n_test idx)) = n_train
  /\ length (take n_test idx) = n_test
  /\ Forall (fun i => (i < n)%nat) idx.
Proof.
  intros Hperm Hsum.
  assert (Hn : length idx = n) by (by rewrite Hperm, length_seq).
  split; [|split; [|split]].
  - rewrite (comm (++)), take_take_drop, take_ge by lia. exact Hperm.
  - rewrite length_take, length_drop. lia.
  - rewrite length_take. lia.
  - rewrite Hperm. apply Forall_forall. intros i Hi.
    apply list_elem_of_In, in_seq in Hi. lia.
Qed.

Lemma split_rows {A : Type} (l : list A) (idx : list nat)
    (n_train n_test : nat) :
  idx ≡ₚ seq 0 (length l) ->
  (n_train + n_test = length l)%nat ->
  take_rows l (take n_train (drop n_test idx)) ++ take_rows l (take n_test idx)
  ≡ₚ l
  /\ length (take_rows l (take n_train (drop n_test idx))) = n_train
  /\ length (take_rows l (take n_test idx)) = n_test.
Proof.
  intros Hperm Hsum.
  destruct (split_indices idx (length l) n_train n_test Hperm Hsum)
    as (Hcover & Hl1 & Hl2 & Hbound).
  split; [|split].
  - rewrite <- take_rows_app, (take_rows_perm l _ _ Hcover).
    by rewrite take_rows_all.
  - rewrite take_rows_length; [exact Hl1|].
    by apply Forall_take, Forall_drop.
  - rewrite take_rows_length; [exact Hl2|].
    by apply Forall_take.
Qed.

Section SplitPartition.

Variable RandomState : Type.
Variable RandomState_seed : Z -> RandomState.
Variable permutation : RandomState -> nat -> list nat * RandomState.

(** [rng.permutation(n)] is a permutation of [range(n)]. *)
Hypothesis permutation_range :
  forall g n, fst (permutation g n) ≡ₚ seq 0 n.

Lemma train_test_split_partition (g g' : RandomState) (X : matrix cell)
    (y : list cell) (test_size : size_spec) (random_state : option Z)
    (Xtr Xte : matrix cell) (ytr yte : list cell) :
  length y = length X ->
  DataProcessor.train_test_split RandomState RandomState_seed permutation
    g X y test_size random_state = (Return (Xtr, Xte, ytr, yte), g') ->
  zip Xtr ytr ++ zip Xte yte ≡ₚ zip X y
  /\ Xtr ++ Xte ≡ₚ X
  /\ length ytr = length Xtr /\ length yte = length Xte
  /\ (1 <= length Xtr)%nat /\ (1 <= length Xte)%nat.
Proof.
  intros Hlen. unfold DataProcessor.train_test_split.
  destruct (validate_shuffle_split (length X) test_size)
    as [e|[n_train n_test]] eqn:Ev; [discriminate|].
  apply validate_sizes in Ev as (Htr & Hte & Hsum).
  assert (Hperm : exists idx g'',
             match random_state with
             | Some seed =>
                 (fst (permutation (RandomState_seed seed) (length X)), g)
             | None => permutation g (length X)
             end = (idx, g'')
             /\ idx ≡ₚ seq 0 (length X)).
  { destruct random_state as [seed|].
    - eexists _, _. split; [reflexivity | apply permutation_range].
    - pose proof (permutation_range g (length X)) as H.
      destruct (permutation g (length X)) as [idx g'']. by exists idx, g''. }
  destruct Hperm as (idx & g'' & -> & Hperm).
  intros [= <- <- <- <- _].
  destruct (split_rows X idx n_train n_test Hperm Hsum) as (HX & HX1 & HX2).
  destruct (split_rows y idx n_train n_test) as (Hy & Hy1 & Hy2);
    [by rewrite Hlen | lia |].
  destruct (split_rows (zip X y) idx n_train n_test) as (Hz & _ & _).
  { rewrite length_zip_with. by rewrite Hlen, Nat.min_id. }
  { rewrite length_zip_with. lia. }
  rewrite !take_rows_zip in Hz by done.
  split; [exact Hz|]. split; [exact HX|].
  rewrite HX1, HX2, Hy1, Hy2. repeat split; lia.
Qed.

(** X16.  When [prepare_train_test_split] returns, the training and the
    test part together are the rows of the frame, none lost and none
    twice, each row of features still paired with its own price; both parts
    have at least one row, and the four parts are the ones stored in the
    processor. *)
Theorem split_is_partition (self self' : DataProcessor.t) (d : DataFrame)
    (g g' : RandomState) (test_size : size_spec) (random_state : option Z)
    (Xtr Xte : matrix cell) (ytr yte : list cell) :
  DataProcessor.df self = Some d ->
  DataProcessor.prepare_train_test_split RandomState RandomState_seed
    permutation self g test_size random_state
  = (Return (Xtr, Xte, ytr, yte), self', g') ->
  exists X y,
    DataProcessor.drop_price d = Return X
    /\ frame_column d price = Return y
    /\ zip Xtr ytr ++ zip Xte yte ≡ₚ zip (rows X) y
    /\ Xtr ++ Xte ≡ₚ rows X
    /\ length ytr = length Xtr /\ length yte = length Xte
    /\ (1 <= length Xtr)%nat /\ (1 <= length Xte)%nat
    /\ DataProcessor.X_train self' = Some Xtr
    /\ DataProcessor.X_test self' = Some Xte
    /\ DataProcessor.y_train self' = Some ytr
    /\ DataProcessor.y_test self' = Some yte.
Proof.
  intros Hdf. unfold DataProcessor.prepare_train_test_split. rewrite Hdf.
  destruct (DataProcessor.drop_price d) as [e|X] eqn:EX; [discriminate|].
  simpl.
  destruct (frame_column d price) as [e|y] eqn:Ey; [discriminate|]. simpl.
  destruct (DataProcessor.train_test_split _ _ _ g (rows X) y _ _)
    as [[e|[[[Xtr' Xte'] ytr'] yte']] g''] eqn:Es; [discriminate|].
  intros [= <- <- <- <- <- <-].
  assert (Hlen : length y = length (rows X)).
  { unfold frame_column in Ey. unfold DataProcessor.drop_price in EX.
    destruct (get_loc (columns d) price) as [e|i]; [discriminate|].
    simpl in *. injection Ey as <-.
    unfold frame_values in EX.
    destruct (comprehension _ _) as [e|idx]; [discriminate|].
    simpl in EX. injection EX as <-. simpl. by rewrite !length_map. }
  destruct (train_test_split_partition _ _ _ _ _ _ _ _ _ _ Hlen Es)
    as (H1 & H2 & H3 & H4 & H5 & H6).
  exists X, y. by repeat split.
Qed.

Lemma prepare_raises (self : DataProcessor.t) (d : DataFrame)
    (g : RandomState) (test_size : size_spec) (random_state : option Z) :
  DataProcessor.df self = Some d ->
  price ∈ columns d ->
  validate_shuffle_split (length (rows d)) test_size = Raise ValueError ->
  DataProcessor.prepare_train_test_split RandomState RandomState_seed
    permutation self g test_size random_state
  = (Raise ValueError, self, g).
Proof.
  intros Hdf Hp Hv. unfold DataProcessor.prepare_train_test_split.
  rewrite Hdf, drop_price_columns by exact Hp. simpl.
  unfold frame_column, get_loc.
  destruct (column_index_Some _ _ Hp) as (i & -> & _). simpl.
  unfold DataProcessor.train_test_split. rewrite length_map, Hv. reflexivity.
Qed.

End SplitPartition.

(** X17.  [prepare_train_test_split] raises [ValueError] on a frame of fewer
    than two rows, whatever the test size, and on a test proportion that is
    not strictly between zero and one; the processor and the generator are
    then as they were. *)
Theorem split_refuses (RandomState : Type) (RandomState_seed : Z -> RandomState)
    (permutation : RandomState -> nat -> list nat * RandomState)
    (self : DataProcessor.t) (d : DataFrame) (g : RandomState)
    (test_size : size_spec) (random_state : option Z) :
  DataProcessor.df self = Some d ->
  price ∈ columns d ->
  (length (rows d) < 2)%nat
  \/ (exists q, test_size = Fraction q /\ ~ (0 < q /\ q < 1)%Q) ->
  DataProcessor.prepare_train_test_split RandomState RandomState_seed
    permutation self g test_size random_state
  = (Raise ValueError, self, g).
Proof.
  intros Hdf Hp Hcase. apply (prepare_raises _ _ _ self d); [done..|].
  destruct Hcase as [Hn|(q & -> & Hq)];
    [by apply validate_small | by apply validate_fraction].
Qed.

Lemma rotate_range (g n : nat) : fst (Demo.rng_permutation g n) ≡ₚ seq 0 n.
Proof.
  unfold Demo.rng_permutation, rotate. simpl.
  rewrite (comm (++)). by rewrite take_drop.
Qed.

Lemma split_is_partition_witness :
  exists X y,
    DataProcessor.drop_price Demo.small_frame = Return X
    /\ frame_column Demo.small_frame price = Return y
    /\ zip [[Some 0%Q]; [Some 1%Q]] [Some 110%Q; Some 120%Q]
       ++ zip [[Some (-1)%Q]] [Some 100%Q] ≡ₚ zip (rows X) y.
Proof.
  destruct (split_is_partition nat Demo.rng_seed Demo.rng_permutation
              rotate_range
              (Demo.processor Demo.small_frame)
              (Demo.split_processor [[Some (-1)%Q]]) Demo.small_frame
              7%nat 7%nat (Fraction (2 # 10)) (Some 42%Z)
              [[Some 0%Q]; [Some 1%Q]] [[Some (-1)%Q]]
              [Some 110%Q; Some 120%Q] [Some 100%Q] eq_refl eq_refl)
    as (X & y & EX & Ey & Hz & _).
  by exists X, y.
Defined.

Lemma split_refuses_witness :
  DataProcessor.prepare_train_test_split nat Demo.rng_seed Demo.rng_permutation
    (Demo.processor lone_frame) 7%nat (Fraction (2 # 10)) (Some 42%Z)
  = (Raise ValueError, Demo.processor lone_frame, 7%nat).
Proof.
  apply (split_refuses nat Demo.rng_seed Demo.rng_permutation
           (Demo.processor lone_frame) lone_frame 7%nat (Fraction (2 # 10))
           (Some 42%Z) eq_refl).
  - apply (bool_decide_unpack _). vm_compute. exact I.
  - left. simpl. lia.
Defined.

(** ** More on scaling *)







Section ScalingProperties.

Variable sqrt : Q -> Q.

(** The square root is zero at zero only. *)
Hypothesis sqrt_nonzero : forall q, ~ (q == 0)%Q -> ~ (sqrt q == 0)%Q.




End ScalingProperties.



(** ** The coefficients by name *)

Lemma dict_get_set {V : Type} (d : dict V) (k k' : string) (v : V) :
  dict_get (dict_set d k v) k'
  = if String.eqb k' k then Some v else dict_get d k'.
Proof.
  induction d as [|[k0 v0] d IH]; simpl; [reflexivity|].
  destruct (String.eqb_spec k k0) as [->|Hne]; simpl.
  - by destruct (String.eqb k' k0).
  - rewrite IH. destruct (String.eqb_spec k' k0) as [->|Hne']; [|reflexivity].
    destruct (String.eqb_spec k0 k) as [->|_]; [by destruct Hne | reflexivity].
Qed.

Lemma dict_get_app {V : Type} (d1 d2 : dict V) (k : string) :
  dict_get (d1 ++ d2) k
  = match dict_get d1 k with Some v => Some v | None => dict_get d2 k end.
Proof.
  induction d1 as [|[k0 v0] d1 IH]; simpl; [reflexivity|].
  by destruct (String.eqb k k0).
Qed.

(** Assigning the pairs of a list one after the other: the last pair of a key
    is the one that stays. *)
Lemma assignments_last_wins {V : Type} (acc : dict V) (l : list (string * V))
    (k : string) :
  dict_get (foldl (fun d fc => dict_set d (fst fc) (snd fc)) acc l) k
  = match dict_get (reverse l) k with
    | Some v => Some v
    | None => dict_get acc k
    end.
Proof.
  revert acc. induction l as [|[k0 v0] l IH]; intros acc; [reflexivity|].
  cbn [foldl]. rewrite IH, reverse_cons, dict_get_app, dict_get_set. simpl.
  destruct (dict_get (reverse l) k); [reflexivity|].
  by destruct (String.eqb k k0).
Qed.

Lemma zip_keys_subset {V : Type} (names : list string) (cs : list V) (k : string) :
  k ∈ dict_keys (reverse (zip names cs)) -> k ∈ names.
Proof.
  unfold dict_keys. intros H.
  apply list_elem_of_fmap in H as ([k' v] & -> & H).
  rewrite elem_of_reverse in H. by apply elem_of_zip_l in H.
Qed.

Lemma zip_by_position {V : Type} (names : list string) (cs : list V)
    (i : nat) (f : string) :
  NoDup names -> names !! i = Some f ->
  dict_get (reverse (zip names cs)) f = cs !! i.
Proof.
  intros Hnd. revert cs i.
  induction Hnd as [|n ns Hn Hnd IH]; intros cs i Hi; [done|].
  destruct cs as [|c cs]; [by destruct i|].
  change (zip (n :: ns) (c :: cs)) with ((n, c) :: zip ns cs).
  rewrite reverse_cons, dict_get_app.
  destruct i as [|i].
  - injection Hi as ->.
    assert (E : dict_get (reverse (zip ns cs)) f = None).
    { apply dict_get_None. intros H. by apply zip_keys_subset in H. }
    rewrite E. cbn [dict_get lookup list_lookup]. by rewrite String.eqb_refl.
  - change ((n :: ns) !! S i) with (ns !! i) in Hi.
    change ((c :: cs) !! S i) with (cs !! i).
    rewrite (IH cs i Hi).
    destruct (cs !! i) as [v|]; [reflexivity|].
    cbn [dict_get].
    destruct (String.eqb_spec f n) as [->|_]; [|reflexivity].
    destruct Hn. by eapply list_elem_of_lookup_2.
Qed.

(** X19.  [get_model_info] of a fitted model returns its intercept and, under
    each feature name, the coefficient that the last occurrence of the name
    meets in [zip(feature_names, coef_)].  When no name is given twice this
    is the coefficient at the position of the name; a name beyond the
    coefficients, and any other name, has no entry, and nothing is raised
    for it. *)
Theorem get_model_info_by_position (self : ModelTrainer.t) (m : LinearModel)
    (feature_names : list string) :
  ModelTrainer.model self = PyLinearRegression (Some m) ->
  exists info,
    get_model_info self feature_names = Return info
    /\ intercept info = intercept_ m
    /\ (forall f, dict_get (coefficients info) f
                  = dict_get (reverse (zip feature_names (coef_ m))) f)
    /\ (NoDup feature_names ->
        forall i f, feature_names !! i = Some f ->
                    dict_get (coefficients info) f = coef_ m !! i)
    /\ (forall f, f ∉ feature_names -> dict_get (coefficients info) f = None).
Proof.
  intros Hm. unfold get_model_info. rewrite Hm.
  eexists. split; [reflexivity|]. cbn [intercept coefficients].
  assert (Hget : forall f,
    dict_get (foldl (fun d fc => dict_set d (fst fc) (snd fc)) []
                    (zip feature_names (coef_ m))) f
    = dict_get (reverse (zip feature_names (coef_ m))) f).
  { intros f. rewrite assignments_last_wins.
    by destruct (dict_get (reverse (zip feature_names (coef_ m))) f). }
  split; [reflexivity|]. split; [exact Hget|]. split.
  - intros Hnd i f Hi. rewrite Hget. by apply zip_by_position.
  - intros f Hf. rewrite Hget. apply dict_get_None.
    intros H. by apply zip_keys_subset in H.
Qed.

Lemma get_model_info_by_position_witness :
  exists info,
    get_model_info Demo.trainer ["a"; "b"; "c"] = Return info
    /\ dict_get (coefficients info) "b" = Some 6%Q
    /\ dict_get (coefficients info) "c" = None.
Proof.
  destruct (get_model_info_by_position Demo.trainer Demo.model'
              ["a"; "b"; "c"] eq_refl) as (info & H & _ & _ & Hpos & _).
  exists info. split; [exact H|].
  assert (Hnd : NoDup ["a"; "b"; "c"]).
  { apply (bool_decide_unpack _). vm_compute. exact I. }
  split.
  - exact (Hpos Hnd 1%nat "b" eq_refl).
  - exact (Hpos Hnd 2%nat "c" eq_refl).
Defined.
